(** * Sensor monitoring core of [T01_4Pilares_Sensores.py]

    A shallow embedding of the sliding-window sensors, their alert
    predicates, the alert manager, the emergency panel and the event
    history, followed by the properties the specification states about
    them.

    Conventions of the embedding:
    - Python [float] values are reached through the interface [Number]:
      the operations the source applies to readings ([+], [>=], [abs],
      [statistics.mean] and the [.2f] format).  Two instances are given:
      IEEE-754 binary64 ([float], what the interpreter computes) and exact
      rationals ([Q], the arithmetic the specification speaks about).
    - [ventana] is a Python [int], hence a [Z]; nothing in the source
      keeps it positive.
    - mutation is explicit state passing: [leer] returns the updated
      sensor, [agregar_evento] the updated history; [None] stands for an
      exception raised by the source ([list.pop] on an empty list).
    - console output and channel deliveries are appended to a log of
      effects that every printing method threads through.
    - the interactive program [probar_sistema] runs on the list of lines
      still to be read from standard input; the prompt of [input] is
      logged like a printed line; [str.strip], [str.upper] and [float]
      are parameters of the model. *)

From Stdlib Require Import String Ascii ZArith QArith Qabs List Bool Lia.
From Stdlib Require Import DecimalString Sorted.
From Stdlib Require Import Floats.PrimFloat Floats.SpecFloat Floats.FloatOps.
From Stdlib Require Import Floats.FloatAxioms.
Import ListNotations.

Set Implicit Arguments.

Local Open Scope string_scope.
Local Open Scope list_scope.
Local Open Scope Z_scope.

(** ** Numbers *)

(** What the source needs from the type of readings.  [mean] is
    [statistics.mean], called by the source on non-empty data only. *)
Class Number (F : Type) : Type := {
  zero : F;
  add : F -> F -> F;
  ge : F -> F -> bool;
  absolute : F -> F;
  mean : list F -> F;
  format_2f : F -> string;
  absolute_zero : absolute zero = zero
}.

(** *** Shared helpers: decimal rendering with two places *)

(** Nearest integer to [n / d], ties to the even neighbour. *)
Definition round_half_even (n : Z) (d : positive) : Z :=
  let q := n / Z.pos d in
  let r := n mod Z.pos d in
  match 2 * r ?= Z.pos d with
  | Lt => q
  | Gt => q + 1
  | Eq => if Z.even q then q else q + 1
  end.

Definition digits (n : Z) : string :=
  NilZero.string_of_uint (N.to_uint (Z.to_N n)).

Definition two_digits (n : Z) : string :=
  if n <? 10 then ("0" ++ digits n)%string else digits n.

(** [format(x, ".2f")] for the finite value [(-1)^neg * n / d], [0 <= n]. *)
Definition format_ratio_2f (neg : bool) (n : Z) (d : positive) : string :=
  let c := round_half_even (n * 100) d in
  ((if neg then "-" else "") ++ digits (c / 100) ++ "." ++ two_digits (c mod 100))%string.

(** *** Exact rationals *)

Definition Qsum (l : list Q) : Q := fold_left Qplus l (0 # 1)%Q.

Definition Qmean (l : list Q) : Q :=
  Qred (Qsum l / inject_Z (Z.of_nat (length l)))%Q.

Definition Qformat_2f (q : Q) : string :=
  format_ratio_2f (Qnum q <? 0) (Z.abs (Qnum q)) (Qden q).

#[export] Instance Number_Q : Number Q := {|
  zero := (0 # 1)%Q;
  add := fun x y => Qred (x + y)%Q;
  ge := fun x y => Qle_bool y x;
  absolute := Qabs;
  mean := Qmean;
  format_2f := Qformat_2f;
  absolute_zero := eq_refl
|}.

(** *** IEEE-754 binary64 *)

Definition is_finite (x : float) : bool :=
  negb (PrimFloat.is_nan x) && negb (PrimFloat.is_infinity x).

(** [float.as_integer_ratio], as a rational; only used on finite values. *)
Definition float_to_Q (x : float) : Q :=
  match Prim2SF x with
  | S754_finite s m e =>
      let n := if s then Z.neg m else Z.pos m in
      match e with
      | Z.neg k => (n # Pos.shiftl 1 (N.pos k))%Q
      | _ => inject_Z (n * 2 ^ e)
      end
  | _ => (0 # 1)%Q
  end.

(** [float(Fraction)]: the quotient of two integers, correctly rounded. *)
Definition Q_to_float (q : Q) : float :=
  match Qnum q with
  | Z0 => PrimFloat.zero
  | Z.pos n =>
      SF2Prim (SFdiv prec emax (S754_finite false n 0) (S754_finite false (Qden q) 0))
  | Z.neg n =>
      SF2Prim (SFdiv prec emax (S754_finite true n 0) (S754_finite false (Qden q) 0))
  end.

Definition float_of_nat (n : nat) : float :=
  SF2Prim (binary_normalize prec emax (Z.of_nat n) 0 false).

(** [statistics.mean] on floats: finite data are summed and divided as
    exact fractions and converted back once; when a NaN or an infinity
    is present only the non-finite entries are added, in floating point,
    and the total is divided by the count. *)
Definition float_mean (l : list float) : float :=
  if forallb is_finite l then Q_to_float (Qmean (map float_to_Q l))
  else
    PrimFloat.div
      (fold_left PrimFloat.add (filter (fun x => negb (is_finite x)) l) PrimFloat.zero)
      (float_of_nat (length l)).

Definition float_format_2f (x : float) : string :=
  if PrimFloat.is_nan x then "nan"
  else if PrimFloat.is_infinity x then (if PrimFloat.get_sign x then "-inf" else "inf")
  else
    let q := float_to_Q x in
    format_ratio_2f (PrimFloat.get_sign x) (Z.abs (Qnum q)) (Qden q).

#[export] Instance Number_float : Number float := {|
  zero := PrimFloat.zero;
  add := PrimFloat.add;
  ge := fun x y => PrimFloat.leb y x;
  absolute := PrimFloat.abs;
  mean := float_mean;
  format_2f := float_format_2f;
  absolute_zero := eq_refl
|}.


(** ** Sensors *)

(** The concrete subclasses of [Sensor], each with its threshold fields. *)
Inductive Clase (F : Type) : Type :=
| SensorTemperatura (umbral : F)
| SensorVibracion (rms_umbral : F)
| SensorSismo (magnitud_umbral : F)
| SensorVolcan (temperatura_umbral gas_umbral : F).

Arguments SensorTemperatura {F} umbral.
Arguments SensorVibracion {F} rms_umbral.
Arguments SensorSismo {F} magnitud_umbral.
Arguments SensorVolcan {F} temperatura_umbral gas_umbral.

(** The dataclass [Sensor]: the inherited fields and the subclass. *)
Record Sensor (F : Type) : Type := mkSensor {
  id : string;
  ventana : Z;
  _calibracion : F;
  _buffer : list F;
  clase : Clase F
}.

Arguments mkSensor {F} id ventana _calibracion _buffer clase.

Section SensorOps.
Context {F : Type} `{Number F}.

Definition con_buffer (s : Sensor F) (b : list F) : Sensor F :=
  mkSensor (id s) (ventana s) (_calibracion s) b (clase s).

(** [list.pop(0)]: raises [IndexError] on an empty list. *)
Definition pop0 (l : list F) : option (list F) :=
  match l with
  | [] => None
  | _ :: rest => Some rest
  end.

(** [Sensor.leer] *)
Definition leer (s : Sensor F) (valor : F) : option (Sensor F) :=
  let v := add valor (_calibracion s) in
  let b := _buffer s ++ [v] in
  if Z.of_nat (length b) >? ventana s then
    match pop0 b with
    | Some b' => Some (con_buffer s b')
    | None => None
    end
  else Some (con_buffer s b).

(** A run of [leer] calls, one per reading, in order. *)
Fixpoint leer_todas (s : Sensor F) (valores : list F) : option (Sensor F) :=
  match valores with
  | [] => Some s
  | v :: resto =>
      match leer s v with
      | Some s' => leer_todas s' resto
      | None => None
      end
  end.

(** [Sensor.promedio] *)
Definition promedio (s : Sensor F) : F :=
  match _buffer s with
  | [] => zero
  | _ :: _ => mean (_buffer s)
  end.

(** [en_alerta], dispatched on the subclass. *)
Definition en_alerta (s : Sensor F) : bool :=
  match clase s with
  | SensorTemperatura umbral => ge (promedio s) umbral
  | SensorVibracion rms_umbral => ge (absolute (promedio s)) rms_umbral
  | SensorSismo magnitud_umbral => ge (promedio s) magnitud_umbral
  | SensorVolcan temperatura_umbral gas_umbral =>
      ge (promedio s) temperatura_umbral || ge (promedio s) gas_umbral
  end.
End SensorOps.

(** ** Notification channels and console output *)

Inductive Notificador : Type :=
| NotificadorEmail (_destinatario : string)
| NotificadorWebhook (_url : string)
| NotificadorSMS (_telefono : string).

(** What the program does to the outside world, in order: a line printed
    by [PanelEmergencias], or a call [n.enviar(mensaje)]. *)
Inductive Efecto : Type :=
| Imprime (linea : string)
| Envia (n : Notificador) (mensaje : string).

Definition Bitacora : Type := list Efecto.

(** The line [enviar] prints. *)
Definition linea_enviar (n : Notificador) (mensaje : string) : string :=
  match n with
  | NotificadorEmail d => "[EMAIL a " ++ d ++ "] " ++ mensaje
  | NotificadorWebhook u => "[WEBHOOK " ++ u ++ "] " ++ mensaje
  | NotificadorSMS t => "[SMS a " ++ t ++ "] " ++ mensaje
  end%string.

Definition enviar (n : Notificador) (mensaje : string) (log : Bitacora) : Bitacora :=
  log ++ [Envia n mensaje].

Definition print (linea : string) (log : Bitacora) : Bitacora :=
  log ++ [Imprime linea].

(** Standard output produced by a log. *)
Definition salida (log : Bitacora) : list string :=
  map (fun e => match e with
                | Imprime l => l
                | Envia n m => linea_enviar n m
                end) log.

(** The [enviar] calls of a log, in order. *)
Fixpoint envios (log : Bitacora) : list (Notificador * string) :=
  match log with
  | [] => []
  | Imprime _ :: r => envios r
  | Envia n m :: r => (n, m) :: envios r
  end.

(** ** GestorAlertas *)

Record GestorAlertas (F : Type) : Type := mkGestor {
  _sensores : list (Sensor F);
  _notificadores : list Notificador
}.

Arguments mkGestor {F} _sensores _notificadores.

Section Gestor.
Context {F : Type} `{Number F}.

Definition mensaje_gestor (s : Sensor F) : string :=
  ("ALERTA: Sensor " ++ id s ++ " en umbral (avg=" ++ format_2f (promedio s) ++ ")")%string.

(** [GestorAlertas.evaluar_y_notificar]: the two nested [for] loops. *)
Definition evaluar_y_notificar (g : GestorAlertas F) (log : Bitacora) : Bitacora :=
  fold_left
    (fun log s =>
       if en_alerta s then
         let msg := mensaje_gestor s in
         fold_left (fun log n => enviar n msg log) (_notificadores g) log
       else log)
    (_sensores g) log.
End Gestor.

(** ** PanelEmergencias *)

Record PanelEmergencias (F : Type) : Type := mkPanel {
  gestor : GestorAlertas F;
  notificador : Notificador;
  indicadores : list (Sensor F)
}.

Arguments mkPanel {F} gestor notificador indicadores.

Section Panel.
Context {F : Type} `{Number F}.

Definition estado_de (s : Sensor F) : string :=
  if en_alerta s then "ALERTA" else "NORMAL".

Definition linea_panel (s : Sensor F) : string :=
  ("[PANEL] Sensor " ++ id s ++ ": " ++ estado_de s
     ++ " (avg=" ++ format_2f (promedio s) ++ ")")%string.

Definition mensaje_panel (s : Sensor F) : string :=
  ("ALERTA: " ++ id s ++ " en estado " ++ estado_de s)%string.

(** [PanelEmergencias.actualizar_panel] *)
Definition actualizar_panel (p : PanelEmergencias F) (log : Bitacora) : Bitacora :=
  fold_left
    (fun log s =>
       let log := print (linea_panel s) log in
       if en_alerta s then enviar (notificador p) (mensaje_panel s) log
       else log)
    (indicadores p) log.
End Panel.

(** ** Event history *)

(** [datetime.now()] is read from the system clock; the reading is an
    argument of the operations that take it. *)
Definition datetime : Type := Z.

Record RegistroEvento (F : Type) : Type := mkRegistro {
  sensor : Sensor F;
  mensaje : string;
  timestamp : datetime
}.

Arguments mkRegistro {F} sensor mensaje timestamp.

Record HistorialEventos (F : Type) : Type := mkHistorial {
  registros : list (RegistroEvento F)
}.

Arguments mkHistorial {F} registros.

(** [HistorialEventos.agregar_evento]; [ahora] is the clock reading taken
    by the default factory of [timestamp]. *)
Definition agregar_evento {F : Type} (h : HistorialEventos F)
    (sensor : Sensor F) (mensaje : string) (ahora : datetime) : HistorialEventos F :=
  mkHistorial (registros h ++ [mkRegistro sensor mensaje ahora]).

(** A run of [agregar_evento] calls. *)
Definition agregar_eventos {F : Type} (h : HistorialEventos F)
    (llamadas : list (Sensor F * string * datetime)) : HistorialEventos F :=
  fold_left (fun h '(s, m, t) => agregar_evento h s m t) llamadas h.

(** ** What one evaluation delivers *)

(** The deliveries [evaluar_y_notificar] adds to the log: for each sensor
    in alert, its message to each channel. *)
Definition reparto {F : Type} `{Number F} (g : GestorAlertas F) : Bitacora :=
  flat_map (fun s => map (fun n => Envia n (mensaje_gestor s)) (_notificadores g))
           (filter en_alerta (_sensores g)).

(** ** The interactive program [probar_sistema] *)

(** The calls of a log that print a line directly ([print] in
    [PanelEmergencias] and in the program), in order. *)
Fixpoint impresos (log : Bitacora) : list string :=
  match log with
  | [] => []
  | Imprime l :: r => l :: impresos r
  | Envia _ _ :: r => impresos r
  end.

(** Exceptions the program can end with. *)
Inductive Excepcion : Type :=
| EOFError
| ValueError
| IndexError.

(** Outcome of a piece of the program run on the lines still to be read
    from standard input and on the log so far: it returns a value, the
    lines left and the log, or it raises with the log reached. *)
Inductive Resultado (A : Type) : Type :=
| Vuelve (a : A) (entradas : list string) (log : Bitacora)
| Lanza (e : Excepcion) (log : Bitacora).

Arguments Vuelve {A} a entradas log.
Arguments Lanza {A} e log.

Definition Programa (A : Type) : Type := list string -> Bitacora -> Resultado A.

Definition retornar {A : Type} (a : A) : Programa A :=
  fun entradas log => Vuelve a entradas log.

Definition lanzar {A : Type} (e : Excepcion) : Programa A :=
  fun _ log => Lanza e log.

Definition ligar {A B : Type} (m : Programa A) (k : A -> Programa B) : Programa B :=
  fun entradas log =>
    match m entradas log with
    | Vuelve a entradas' log' => k a entradas' log'
    | Lanza e log' => Lanza e log'
    end.

Notation "x <- m ;; k" := (ligar m (fun x => k))
  (at level 61, m at next level, right associativity).
Notation "m ;;; k" := (ligar m (fun _ => k))
  (at level 61, right associativity).

(** [print(linea)] as a step of the program. *)
Definition imprimir (linea : string) : Programa unit :=
  fun entradas log => Vuelve tt entradas (print linea log).

(** [input(prompt)]: the prompt is written, then a line is read;
    [EOFError] when standard input is exhausted. *)
Definition input (prompt : string) : Programa string :=
  fun entradas log =>
    match entradas with
    | [] => Lanza EOFError (print prompt log)
    | l :: resto => Vuelve l resto (print prompt log)
    end.

(** Dataclass defaults of [Sensor]: [ventana = 5], [_calibracion = 0.0],
    an empty [_buffer]. *)
Definition sensor_nuevo (id : string) (c : Clase float) : Sensor float :=
  mkSensor id 5 0%float [] c.

Section Interactivo.
(** [str.strip], [str.upper] and [float(str)] belong to the interpreter;
    [float_de] is [None] where [float] raises [ValueError]. *)
Variable strip : string -> string.
Variable upper : string -> string.
Variable float_de : string -> option float.

Definition leer_float (prompt : string) : Programa float :=
  l <- input prompt ;;
  match float_de l with
  | Some v => retornar v
  | None => lanzar ValueError
  end.

(** [probar_sistema], the choice of the sensor. *)
Definition elegir_sensor : Programa (Sensor float) :=
  imprimir "Elige un tipo de sensor:" ;;;
  imprimir "1 - Temperatura" ;;;
  imprimir "2 - Vibración" ;;;
  imprimir "3 - Sismo" ;;;
  imprimir "4 - Volcán" ;;;
  o <- input "Ingresa el número de tu opción: " ;;
  let opcion := strip o in
  sensor_id <- input "ID del sensor: " ;;
  if String.eqb opcion "1" then
    umbral <- leer_float "Umbral de temperatura: " ;;
    retornar (sensor_nuevo sensor_id (SensorTemperatura umbral))
  else if String.eqb opcion "2" then
    umbral <- leer_float "Umbral RMS: " ;;
    retornar (sensor_nuevo sensor_id (SensorVibracion umbral))
  else if String.eqb opcion "3" then
    umbral <- leer_float "Umbral de magnitud sismo: " ;;
    retornar (sensor_nuevo sensor_id (SensorSismo umbral))
  else if String.eqb opcion "4" then
    temp_umbral <- leer_float "Umbral de temperatura volcán: " ;;
    gas_umbral <- leer_float "Umbral de gas volcán: " ;;
    retornar (sensor_nuevo sensor_id (SensorVolcan temp_umbral gas_umbral))
  else
    imprimir "Opción inválida, usando SensorTemperatura por defecto." ;;;
    retornar (sensor_nuevo sensor_id (SensorTemperatura 80%float)).

(** [probar_sistema], the choice of the channel. *)
Definition elegir_notificador : Programa Notificador :=
  imprimir "Elige tipo de notificador:" ;;;
  imprimir "1 - Email" ;;;
  imprimir "2 - Webhook" ;;;
  imprimir "3 - SMS" ;;;
  o <- input "Ingresa número: " ;;
  let opcion_notif := strip o in
  if String.eqb opcion_notif "1" then
    destino <- input "Correo destinatario: " ;;
    retornar (NotificadorEmail destino)
  else if String.eqb opcion_notif "2" then
    url <- input "URL webhook: " ;;
    retornar (NotificadorWebhook url)
  else if String.eqb opcion_notif "3" then
    tel <- input "Número de teléfono: " ;;
    retornar (NotificadorSMS tel)
  else
    imprimir "Opción inválida, usando Email por defecto." ;;;
    retornar (NotificadorEmail "default@email.com").

(** The manager and the panel of [probar_sistema] hold the one sensor and
    the one channel of the session; they are rebuilt here from the
    sensor's current state, which is what the shared reference shows. *)
Definition gestor_de (s : Sensor float) (n : Notificador) : GestorAlertas float :=
  mkGestor [s] [n].

Definition panel_de (s : Sensor float) (n : Notificador) : PanelEmergencias float :=
  mkPanel (gestor_de s n) n [s].

(** [probar_sistema], the [while seguir] loop: every pass reads two lines,
    so the recursion is on the lines left to read. *)
Fixpoint bucle (n : Notificador) (s : Sensor float) (entradas : list string)
    (log : Bitacora) {struct entradas} : Resultado (Sensor float) :=
  let log := print ("Ingrese valor de lectura para sensor " ++ id s ++ ": ") log in
  match entradas with
  | [] => Lanza EOFError log
  | l1 :: entradas1 =>
      match float_de l1 with
      | None => Lanza ValueError log
      | Some valor =>
          match leer s valor with
          | None => Lanza IndexError log
          | Some s' =>
              let log := print ("Promedio actual: " ++ format_2f (promedio s')) log in
              let log := evaluar_y_notificar (gestor_de s' n) log in
              let log := actualizar_panel (panel_de s' n) log in
              let log := print "Ingresar otra lectura? (Y/N): " log in
              match entradas1 with
              | [] => Lanza EOFError log
              | l2 :: entradas2 =>
                  if String.eqb (upper (strip l2)) "Y"
                  then bucle n s' entradas2 log
                  else Vuelve s' entradas2 log
              end
          end
      end
  end.

(** [probar_sistema]; the value returned is the sensor as the loop left
    it (the source returns [None] and drops it). *)
Definition probar_sistema : Programa (Sensor float) :=
  sensor <- elegir_sensor ;;
  notificador <- elegir_notificador ;;
  bucle notificador sensor.
End Interactivo.

(** ** Vocabulary for runs of the program *)

(** The log an outcome carries. *)
Definition bitacora_de {A : Type} (r : Resultado A) : Bitacora :=
  match r with
  | Vuelve _ _ log => log
  | Lanza _ log => log
  end.

(** The states a sensor goes through, one after each reading. *)
Fixpoint estados {F : Type} `{Number F} (s : Sensor F) (valores : list F)
    : list (Sensor F) :=
  match valores with
  | [] => []
  | v :: resto =>
      match leer s v with
      | Some s' => s' :: estados s' resto
      | None => []
      end
  end.

(** What every outcome [r] of the loop satisfies, for the channel [n], the
    sensor [s] and the log [log] it was started with: no [IndexError];
    only [n] is delivered to; a sensor that is returned has read at least
    one reading since [s]. *)
Definition bucle_correcto (n : Notificador) (s : Sensor float) (log : Bitacora)
    (r : Resultado (Sensor float)) : Prop :=
  (forall l, r <> Lanza IndexError l)
  /\ (exists ds, envios (bitacora_de r) = envios log ++ ds
                 /\ Forall (fun e => fst e = n) ds)
  /\ (forall s' entradas' log',
        r = Vuelve s' entradas' log' ->
        exists v vs, leer_todas s (v :: vs) = Some s').

(** Stand-ins for the interpreter's functions in the examples below: the
    lines typed there carry no blanks and no lower case, and the only
    numbers typed are these. *)
Definition sin_cambio (l : string) : string := l.

Definition float_de_ejemplo (l : string) : option float :=
  if String.eqb l "85" then Some 85%float
  else if String.eqb l "80" then Some 80%float
  else if String.eqb l "20" then Some 20%float
  else None.

(** ** Closed form of the window *)

(** What a window of capacity [w] holding [b0] keeps after [nuevos] have
    been appended one at a time: the most recent entries, as many as the
    capacity allows (or as many as it held at the start, if that was more). *)
Definition ultimas {A : Type} (w : Z) (b0 nuevos : list A) : list A :=
  let todo := b0 ++ nuevos in
  skipn (length todo - Nat.max (Z.to_nat w) (length b0)) todo.

(** ** A true root mean square, for comparison *)

(** The root mean square of a window on binary64, [sqrt(mean(x*x))]:
    the quantity the name [rms_umbral] suggests and that
    [SensorVibracion.en_alerta] does not compute. *)
Definition rms_verdadero (l : list float) : float :=
  PrimFloat.sqrt (float_mean (map (fun x => PrimFloat.mul x x) l)).

(** * Properties *)

Section BufferFacts.
Context {F : Type} `{Number F}.

Lemma con_buffer_same (s : Sensor F) : con_buffer s (_buffer s) = s.
Proof. destruct s; reflexivity. Qed.

Lemma pop0_snoc (b : list F) (v : F) : pop0 (b ++ [v]) = Some (tl (b ++ [v])).
Proof. destruct b; reflexivity. Qed.

(** One call: [leer] never raises, and its result is the appended
    buffer, without its head when the capacity is exceeded. *)
Lemma leer_ok (s : Sensor F) (v : F) :
  leer s v =
  Some (con_buffer s
          (if Z.of_nat (length (_buffer s)) + 1 >? ventana s
           then tl (_buffer s ++ [add v (_calibracion s)])
           else _buffer s ++ [add v (_calibracion s)])).
Proof.
  unfold leer; cbv zeta.
  rewrite pop0_snoc, length_app; simpl length.
  replace (Z.of_nat (length (_buffer s) + 1)) with (Z.of_nat (length (_buffer s)) + 1) by lia.
  destruct (_ >? _); reflexivity.
Qed.

Lemma tl_app_snoc (b r : list F) (v : F) :
  tl (b ++ [v]) ++ r = skipn 1 (b ++ v :: r).
Proof. destruct b; simpl; [reflexivity | now rewrite <- app_assoc]. Qed.

Lemma length_tl_snoc (b : list F) (v : F) : length (tl (b ++ [v])) = length b.
Proof. destruct b; simpl; [reflexivity|]. rewrite length_app; simpl; lia. Qed.

(** Any run of calls: the result is the closed form [ultimas]. *)
Lemma leer_todas_ok (vs : list F) : forall s : Sensor F,
  leer_todas s vs =
  Some (con_buffer s
          (ultimas (ventana s) (_buffer s)
             (map (fun v => add v (_calibracion s)) vs))).
Proof.
  induction vs as [|v vs IH]; intros s.
  - simpl. unfold ultimas. rewrite app_nil_r.
    replace (_ - _)%nat with 0%nat by lia.
    simpl. now rewrite con_buffer_same.
  - simpl leer_todas. rewrite leer_ok.
    set (c := _calibracion s). set (b0 := _buffer s). set (w := ventana s).
    destruct (Z.of_nat (length b0) + 1 >? w) eqn:E; rewrite IH; simpl;
      fold c; fold w; unfold con_buffer; simpl; f_equal; f_equal; unfold ultimas.
    + apply Z.gtb_lt in E.
      rewrite tl_app_snoc, length_tl_snoc, skipn_skipn.
      rewrite length_skipn, !length_app. simpl length.
      f_equal. lia.
    + assert (E' : Z.of_nat (length b0) + 1 <= w).
      { destruct (Z.gtb_spec (Z.of_nat (length b0) + 1) w); [discriminate | lia]. }
      rewrite <- app_assoc. simpl app.
      rewrite !length_app. simpl length. f_equal. lia.
Qed.
End BufferFacts.

Section Window.
Context {F : Type} `{Number F}.

(** C1: for a sensor with a positive [ventana] that starts with an empty
    buffer, every run of [leer] calls succeeds and leaves a buffer of
    length between 0 and [ventana]; the buffer holds the most recent
    calibrated readings in arrival order, and one more call appends at
    the end, dropping the oldest entry exactly when the buffer is full. *)
Theorem leer_todas_acotado (s : Sensor F) (vs : list F) :
  0 < ventana s ->
  _buffer s = [] ->
  exists s',
    leer_todas s vs = Some s'
    /\ ventana s' = ventana s
    /\ 0 <= Z.of_nat (length (_buffer s')) <= ventana s'
    /\ _buffer s' =
         skipn (length vs - Z.to_nat (ventana s))
               (map (fun v => add v (_calibracion s)) vs)
    /\ forall v,
         leer s' v =
         Some (con_buffer s'
                 (if Z.of_nat (length (_buffer s')) <? ventana s'
                  then _buffer s' ++ [add v (_calibracion s')]
                  else tl (_buffer s') ++ [add v (_calibracion s')])).
Proof.
  intros Hw Hb. eexists. split; [apply leer_todas_ok|].
  rewrite Hb. unfold ultimas. cbn [con_buffer ventana _buffer _calibracion app length].
  rewrite Nat.max_0_r, length_map.
  set (b := skipn _ _).
  assert (Hlen : length b = Nat.min (length vs) (Z.to_nat (ventana s))).
  { unfold b. rewrite length_skipn, length_map. lia. }
  repeat split; try lia.
  intros v. rewrite leer_ok. cbn [con_buffer ventana _buffer _calibracion].
  do 2 f_equal.
  destruct (Z.ltb_spec (Z.of_nat (length b)) (ventana s)) as [Hlt|Hge].
  - destruct (Z.gtb_spec (Z.of_nat (length b) + 1) (ventana s)); [lia | reflexivity].
  - destruct (Z.gtb_spec (Z.of_nat (length b) + 1) (ventana s)); [| lia].
    destruct b; [simpl in Hge; lia | reflexivity].
Qed.

(** C10, amended: with [ventana <= 0] and a buffer that is empty at the
    start (the default of the constructor), every run of [leer] calls
    succeeds and leaves the sensor as it was, its buffer empty; [promedio]
    is then zero and each [en_alerta] compares zero with the thresholds of
    the subclass. *)
Theorem leer_ventana_no_positiva (s : Sensor F) (vs : list F) :
  ventana s <= 0 ->
  _buffer s = [] ->
  leer_todas s vs = Some s
  /\ (forall v : F, leer s v = Some s)
  /\ _buffer s = []
  /\ promedio s = zero
  /\ en_alerta s =
       match clase s with
       | SensorTemperatura umbral => ge zero umbral
       | SensorVibracion rms_umbral => ge zero rms_umbral
       | SensorSismo magnitud_umbral => ge zero magnitud_umbral
       | SensorVolcan temperatura_umbral gas_umbral =>
           ge zero temperatura_umbral || ge zero gas_umbral
       end.
Proof.
  intros Hw Hb.
  assert (Hp : promedio s = zero) by (unfold promedio; now rewrite Hb).
  assert (Ht : forall l, leer_todas s l = Some s).
  { intros l. rewrite leer_todas_ok, Hb. unfold ultimas.
    cbn [app length]. rewrite Nat.max_0_r.
    replace (Z.to_nat (ventana s)) with 0%nat by lia.
    rewrite Nat.sub_0_r, skipn_all. rewrite <- Hb.
    now rewrite con_buffer_same. }
  split; [apply Ht|]. split; [| split; [exact Hb | split; [exact Hp|]]].
  - intros v. specialize (Ht [v]). simpl in Ht.
    destruct (leer s v); [exact Ht | discriminate].
  - unfold en_alerta. rewrite Hp.
    destruct (clase s); try reflexivity. now rewrite absolute_zero.
Qed.
End Window.

(** C7: [leer] stores [valor + _calibracion] and nothing else changes:
    the call appends the calibrated reading (the head goes when the
    capacity is exceeded), and after any run of calls the buffer is a
    suffix of the initial entries followed by each reading with the
    offset added once, while the offset itself stays the same.  On
    binary64, offset 1.0 and reading 9.0 store 10.0. *)
Theorem leer_calibra_una_vez :
  (forall (F : Type) (N : Number F) (s : Sensor F) (valor : F) (vs : list F),
     leer s valor =
       Some (con_buffer s
               (if Z.of_nat (length (_buffer s)) + 1 >? ventana s
                then tl (_buffer s ++ [add valor (_calibracion s)])
                else _buffer s ++ [add valor (_calibracion s)]))
     /\ exists s',
          leer_todas s vs = Some s'
          /\ _calibracion s' = _calibracion s
          /\ _buffer s' =
               ultimas (ventana s) (_buffer s)
                 (map (fun v => add v (_calibracion s)) vs))
  /\ leer (mkSensor "t1" 5 1%float [] (SensorTemperatura 80%float)) 9%float
     = Some (mkSensor "t1" 5 1%float [10%float] (SensorTemperatura 80%float))
  /\ leer_todas (mkSensor "t1" 2 1%float [] (SensorTemperatura 80%float))
       [9%float; 0.5%float; 3%float]
     = Some (mkSensor "t1" 2 1%float [1.5%float; 4%float] (SensorTemperatura 80%float)).
Proof.
  split; [| split; reflexivity].
  intros F N s valor vs. split; [apply leer_ok|].
  eexists. split; [apply leer_todas_ok|]. split; reflexivity.
Qed.


(** C1 at a window of three fed four readings. *)
Lemma leer_todas_acotado_witness :
  let s := mkSensor "t1" 3 0%float [] (SensorTemperatura 80%float) in
  let vs := [1%float; 2%float; 3%float; 4%float] in
  exists s',
    leer_todas s vs = Some s'
    /\ ventana s' = ventana s
    /\ 0 <= Z.of_nat (length (_buffer s')) <= ventana s'
    /\ _buffer s' =
         skipn (length vs - Z.to_nat (ventana s))
               (map (fun v => add v (_calibracion s)) vs)
    /\ forall v,
         leer s' v =
         Some (con_buffer s'
                 (if Z.of_nat (length (_buffer s')) <? ventana s'
                  then _buffer s' ++ [add v (_calibracion s')]
                  else tl (_buffer s') ++ [add v (_calibracion s')])).
Proof.
  intros s vs. apply (leer_todas_acotado s vs); [simpl; lia | reflexivity].
Defined.

(** C10 at a window of zero. *)
Lemma leer_ventana_no_positiva_witness :
  let s := mkSensor "v0" 0 0%float [] (SensorVibracion 2.5%float) in
  let vs := [7%float; 8%float] in
  leer_todas s vs = Some s
  /\ (forall v : float, leer s v = Some s)
  /\ _buffer s = []
  /\ promedio s = zero
  /\ en_alerta s = ge zero 2.5%float.
Proof.
  intros s vs. apply (leer_ventana_no_positiva s vs); [simpl; lia | reflexivity].
Defined.

(** C10 as first worded, for every sensor with [ventana <= 0], fails on a
    sensor constructed with entries already in its buffer: with a window
    of zero and the buffer 100, 200, reading 1 leaves 200, 1; the average
    is 100.5, not zero, and the sensor is in alert at 80 although zero is
    below that threshold. *)
Lemma leer_ventana_no_positiva_contraejemplo :
  ventana (mkSensor "t1" 0 0%float [100%float; 200%float] (SensorTemperatura 80%float)) <= 0
  /\ leer_todas
       (mkSensor "t1" 0 0%float [100%float; 200%float] (SensorTemperatura 80%float))
       [1%float]
     = Some (mkSensor "t1" 0 0%float [200%float; 1%float] (SensorTemperatura 80%float))
  /\ promedio (mkSensor "t1" 0 0%float [200%float; 1%float] (SensorTemperatura 80%float))
     = 100.5%float
  /\ en_alerta (mkSensor "t1" 0 0%float [200%float; 1%float] (SensorTemperatura 80%float))
     = true
  /\ ge zero 80%float = false
  /\ ~ (forall (s : Sensor float) (vs : list float),
          ventana s <= 0 ->
          exists s',
            leer_todas s vs = Some s'
            /\ _buffer s' = []
            /\ promedio s' = zero
            /\ en_alerta s' =
                 match clase s' with
                 | SensorTemperatura umbral => ge zero umbral
                 | SensorVibracion rms_umbral => ge zero rms_umbral
                 | SensorSismo magnitud_umbral => ge zero magnitud_umbral
                 | SensorVolcan temperatura_umbral gas_umbral =>
                     ge zero temperatura_umbral || ge zero gas_umbral
                 end).
Proof.
  split; [simpl; lia|]. split; [reflexivity|]. split; [reflexivity|].
  split; [reflexivity|]. split; [reflexivity|].
  intros Hall.
  destruct (Hall (mkSensor "t1" 0 0%float [100%float; 200%float]
                    (SensorTemperatura 80%float)) [1%float])
    as [s' [Hl [Hb _]]]; [simpl; lia|].
  rewrite leer_todas_ok in Hl. injection Hl as <-.
  apply (f_equal (@length float)) in Hb.
  cbn [con_buffer _buffer ventana _calibracion map] in Hb.
  unfold ultimas in Hb. simpl in Hb. discriminate Hb.
Qed.

(** ** Average *)

Lemma Qsum_from (l : list Q) : forall a : Q,
  (fold_left Qplus l a == a + fold_right Qplus 0 l)%Q.
Proof.
  induction l as [|x l IH]; intros a; simpl.
  - ring.
  - rewrite IH. ring.
Qed.

Lemma Qmean_times_length (x : Q) (xs : list Q) :
  (Qmean (x :: xs) * inject_Z (Z.of_nat (length (x :: xs)))
   == fold_right Qplus 0 (x :: xs))%Q.
Proof.
  unfold Qmean, Qsum. rewrite Qred_correct, Qsum_from.
  set (n := inject_Z (Z.of_nat (length (x :: xs)))).
  assert (Hn : ~ (n == 0)%Q).
  { unfold n, Qeq, inject_Z. simpl Qnum. simpl Z.of_nat. lia. }
  field. exact Hn.
Qed.

(** C2: [promedio] is zero on an empty buffer and [statistics.mean] of the
    buffer otherwise; over the rationals that mean times the number of
    entries is their sum, and on binary64 it is that exact mean of the
    finite entries rounded once.  A window of three fed 1, 2, 3, 4 without
    calibration holds 2, 3, 4 and averages 3.0. *)
Theorem promedio_media :
  (forall (F : Type) (N : Number F) i w c k,
     promedio (mkSensor i w c [] k) = zero)
  /\ (forall (F : Type) (N : Number F) i w c k (x : F) (xs : list F),
        promedio (mkSensor i w c (x :: xs) k) = mean (x :: xs))
  /\ (forall (x : Q) (xs : list Q),
        (mean (x :: xs) * inject_Z (Z.of_nat (length (x :: xs)))
         == fold_right Qplus 0 (x :: xs))%Q)
  /\ (forall (x : float) (xs : list float),
        forallb is_finite (x :: xs) = true ->
        mean (x :: xs) = Q_to_float (mean (map float_to_Q (x :: xs))))
  /\ (exists s',
        leer_todas (mkSensor "t1" 3 0%float [] (SensorTemperatura 80%float))
          [1%float; 2%float; 3%float; 4%float] = Some s'
        /\ _buffer s' = [2%float; 3%float; 4%float]
        /\ promedio s' = 3%float)
  /\ (exists s',
        leer_todas (mkSensor "t1" 3 (0 # 1)%Q [] (SensorTemperatura (80 # 1)%Q))
          [1 # 1; 2 # 1; 3 # 1; 4 # 1]%Q = Some s'
        /\ _buffer s' = [2 # 1; 3 # 1; 4 # 1]%Q
        /\ promedio s' = (3 # 1)%Q).
Proof.
  split; [reflexivity|]. split; [reflexivity|].
  split; [exact Qmean_times_length|].
  split.
  - intros x xs Hfin. cbn [mean Number_float Number_Q]. unfold float_mean.
    now rewrite Hfin.
  - split; eexists; (split; [reflexivity|]); split; reflexivity.
Qed.

(** C2 on two finite binary64 readings. *)
Lemma promedio_media_witness :
  mean [0.5%float; 0.25%float]
  = Q_to_float (mean (map float_to_Q [0.5%float; 0.25%float])).
Proof.
  apply (proj1 (proj2 (proj2 (proj2 promedio_media)))). reflexivity.
Defined.

(** ** Alert predicates *)

(** C6: a temperature sensor is in alert exactly when its average is at
    least [umbral]; on binary64 that is [umbral <= promedio], and an
    average equal to the threshold 80.0 alerts. *)
Theorem en_alerta_temperatura :
  (forall (F : Type) (N : Number F) i w c b (umbral : F),
     let s := mkSensor i w c b (SensorTemperatura umbral) in
     en_alerta s = ge (promedio s) umbral)
  /\ (forall i w c b (umbral : Q),
        let s := mkSensor i w c b (SensorTemperatura umbral) in
        en_alerta s = true <-> (umbral <= promedio s)%Q)
  /\ (forall i w c b (umbral : float),
        let s := mkSensor i w c b (SensorTemperatura umbral) in
        en_alerta s = (umbral <=? promedio s)%float)
  /\ (let s := mkSensor "t1" 5 0%float [80%float] (SensorTemperatura 80%float) in
      promedio s = 80%float /\ en_alerta s = true)
  /\ (let s := mkSensor "t1" 5 0%float [79.5%float; 80.5%float] (SensorTemperatura 80%float) in
      promedio s = 80%float /\ en_alerta s = true)
  /\ (let s := mkSensor "t1" 5 0%float [79.5%float; 80%float] (SensorTemperatura 80%float) in
      promedio s = 79.75%float /\ en_alerta s = false).
Proof.
  split; [reflexivity|]. split.
  - intros i w c b umbral s. unfold en_alerta; cbn [clase s ge Number_Q].
    apply Qle_bool_iff.
  - repeat split; reflexivity.
Qed.

(** C4: a volcano sensor is in alert exactly when its average is at least
    [temperatura_umbral] or at least [gas_umbral], the same average in both
    comparisons; an average of 910 against 900 and 1000 alerts, and so does
    950 against 900 whatever the gas threshold. *)
Theorem en_alerta_volcan :
  (forall (F : Type) (N : Number F) i w c b (temperatura_umbral gas_umbral : F),
     let s := mkSensor i w c b (SensorVolcan temperatura_umbral gas_umbral) in
     en_alerta s = ge (promedio s) temperatura_umbral || ge (promedio s) gas_umbral)
  /\ (forall i w c b (temperatura_umbral gas_umbral : Q),
        let s := mkSensor i w c b (SensorVolcan temperatura_umbral gas_umbral) in
        en_alerta s = true <->
        (temperatura_umbral <= promedio s)%Q \/ (gas_umbral <= promedio s)%Q)
  /\ (forall i w c b (temperatura_umbral gas_umbral : float),
        let s := mkSensor i w c b (SensorVolcan temperatura_umbral gas_umbral) in
        en_alerta s =
        (temperatura_umbral <=? promedio s)%float || (gas_umbral <=? promedio s)%float)
  /\ (let s := mkSensor "v1" 5 0%float [910%float] (SensorVolcan 900%float 1000%float) in
      promedio s = 910%float /\ en_alerta s = true)
  /\ (forall gas_umbral : float,
        let s := mkSensor "v1" 5 0%float [950%float] (SensorVolcan 900%float gas_umbral) in
        promedio s = 950%float /\ en_alerta s = true)
  /\ (let s := mkSensor "v1" 5 0%float [60%float] (SensorVolcan 900%float 50%float) in
      en_alerta s = true)
  /\ (let s := mkSensor "v1" 5 0%float [40%float] (SensorVolcan 900%float 50%float) in
      en_alerta s = false).
Proof.
  split; [reflexivity|]. split.
  - intros i w c b t g s. unfold en_alerta; cbn [clase s ge Number_Q].
    rewrite orb_true_iff, !Qle_bool_iff. reflexivity.
  - repeat split; reflexivity.
Qed.

(** C8: a vibration sensor is in alert exactly when the absolute value of
    its average is at least [rms_umbral].  That is not the root mean
    square of the window: readings 3 and -3 average 0 and do not alert at
    2.5 although their root mean square is 3, while -3 and -3 do alert. *)
Theorem en_alerta_vibracion :
  (forall (F : Type) (N : Number F) i w c b (rms_umbral : F),
     let s := mkSensor i w c b (SensorVibracion rms_umbral) in
     en_alerta s = ge (absolute (promedio s)) rms_umbral)
  /\ (forall i w c b (rms_umbral : Q),
        let s := mkSensor i w c b (SensorVibracion rms_umbral) in
        en_alerta s = true <-> (rms_umbral <= Qabs (promedio s))%Q)
  /\ (forall i w c b (rms_umbral : float),
        let s := mkSensor i w c b (SensorVibracion rms_umbral) in
        en_alerta s = (rms_umbral <=? PrimFloat.abs (promedio s))%float)
  /\ (let s := mkSensor "x1" 5 0%float [3%float; (-3)%float] (SensorVibracion 2.5%float) in
      promedio s = 0%float
      /\ en_alerta s = false
      /\ rms_verdadero (_buffer s) = 3%float
      /\ ge (rms_verdadero (_buffer s)) 2.5%float = true)
  /\ (let s := mkSensor "x1" 5 0%float [(-3)%float; (-3)%float] (SensorVibracion 2.5%float) in
      promedio s = (-3)%float /\ en_alerta s = true).
Proof.
  split; [reflexivity|]. split.
  - intros i w c b rms s. unfold en_alerta; cbn [clase s ge absolute Number_Q].
    apply Qle_bool_iff.
  - repeat split; reflexivity.
Qed.

(** ** Deliveries *)

Lemma envios_app (l1 l2 : Bitacora) : envios (l1 ++ l2) = envios l1 ++ envios l2.
Proof.
  induction l1 as [|e l1 IH]; simpl; [reflexivity|].
  destruct e; simpl; now rewrite IH.
Qed.

Lemma envios_map_Envia (ns : list Notificador) (msg : string) :
  envios (map (fun n => Envia n msg) ns) = map (fun n => (n, msg)) ns.
Proof. induction ns as [|n ns IH]; simpl; [reflexivity | now rewrite IH]. Qed.

(** The inner loop: one message to every channel, in order. *)
Lemma enviar_a_todos (ns : list Notificador) (msg : string) : forall log : Bitacora,
  fold_left (fun log n => enviar n msg log) ns log
  = log ++ map (fun n => Envia n msg) ns.
Proof.
  induction ns as [|n ns IH]; intros log; simpl.
  - now rewrite app_nil_r.
  - rewrite IH. unfold enviar. now rewrite <- app_assoc.
Qed.

Section Dispatch.
Context {F : Type} `{Number F}.

(** What one sensor contributes to the log of [evaluar_y_notificar]. *)
Lemma evaluar_lista (ns : list Notificador) (ss : list (Sensor F)) :
  forall log : Bitacora,
  fold_left
    (fun log s =>
       if en_alerta s then
         let msg := mensaje_gestor s in
         fold_left (fun log n => enviar n msg log) ns log
       else log) ss log
  = log ++ flat_map (fun s => map (fun n => Envia n (mensaje_gestor s)) ns)
                    (filter en_alerta ss).
Proof.
  induction ss as [|s ss IH]; intros log; simpl.
  - now rewrite app_nil_r.
  - rewrite IH. destruct (en_alerta s); simpl; [|reflexivity].
    now rewrite enviar_a_todos, <- app_assoc.
Qed.

Lemma envios_evaluar (ns : list Notificador) (ss : list (Sensor F)) :
  envios (flat_map (fun s => map (fun n => Envia n (mensaje_gestor s)) ns) ss)
  = flat_map (fun s => map (fun n => (n, mensaje_gestor s)) ns) ss.
Proof.
  induction ss as [|s ss IH]; simpl; [reflexivity|].
  now rewrite envios_app, envios_map_Envia, IH.
Qed.

Lemma length_fanout (ns : list Notificador) (ss : list (Sensor F)) :
  length (flat_map (fun s => map (fun n => (n, mensaje_gestor s)) ns) ss)
  = (length ss * length ns)%nat.
Proof.
  induction ss as [|s ss IH]; simpl; [reflexivity|].
  now rewrite length_app, length_map, IH.
Qed.

(** C3: [evaluar_y_notificar] adds to the log, for each sensor in alert in
    list order, one delivery of its message to each channel in list order,
    and nothing for the other sensors; the message is the fixed text around
    the id and the average with two decimals.  The number of deliveries is
    the number of sensors in alert times the number of channels, and two
    sensors in alert with two channels give four deliveries, sensor first. *)
Theorem evaluar_y_notificar_reparte (g : GestorAlertas F) (log : Bitacora) :
  evaluar_y_notificar g log
  = log ++ flat_map (fun s => map (fun n => Envia n (mensaje_gestor s)) (_notificadores g))
                    (filter en_alerta (_sensores g))
  /\ (forall s : Sensor F,
        mensaje_gestor s
        = ("ALERTA: Sensor " ++ id s ++ " en umbral (avg="
             ++ format_2f (promedio s) ++ ")")%string)
  /\ length (envios (evaluar_y_notificar g []))
     = (length (filter en_alerta (_sensores g)) * length (_notificadores g))%nat
  /\ (forall s1 s2 n1 n2,
        _sensores g = [s1; s2] ->
        _notificadores g = [n1; n2] ->
        en_alerta s1 = true ->
        en_alerta s2 = true ->
        evaluar_y_notificar g []
        = [Envia n1 (mensaje_gestor s1); Envia n2 (mensaje_gestor s1);
           Envia n1 (mensaje_gestor s2); Envia n2 (mensaje_gestor s2)]).
Proof.
  assert (E : forall l, evaluar_y_notificar g l
    = l ++ flat_map (fun s => map (fun n => Envia n (mensaje_gestor s)) (_notificadores g))
                    (filter en_alerta (_sensores g)))
    by (intros l; apply evaluar_lista).
  split; [apply E|]. split; [reflexivity|]. split.
  - rewrite E. cbn [app]. now rewrite envios_evaluar, length_fanout.
  - intros s1 s2 n1 n2 Hs Hn H1 H2. rewrite E, Hs, Hn. cbn [filter].
    rewrite H1, H2. reflexivity.
Qed.

(** What one indicator contributes to the log of [actualizar_panel]. *)
Lemma actualizar_lista (n : Notificador) (ss : list (Sensor F)) :
  forall log : Bitacora,
  fold_left
    (fun log s =>
       let log := print (linea_panel s) log in
       if en_alerta s then enviar n (mensaje_panel s) log else log) ss log
  = log ++ flat_map (fun s => Imprime (linea_panel s)
                              :: (if en_alerta s then [Envia n (mensaje_panel s)] else []))
                    ss.
Proof.
  induction ss as [|s ss IH]; intros log; simpl.
  - now rewrite app_nil_r.
  - rewrite IH. unfold print, enviar.
    destruct (en_alerta s); now rewrite <- !app_assoc.
Qed.

Lemma envios_actualizar (n : Notificador) (ss : list (Sensor F)) :
  envios (flat_map (fun s => Imprime (linea_panel s)
                             :: (if en_alerta s then [Envia n (mensaje_panel s)] else []))
                   ss)
  = map (fun s => (n, ("ALERTA: " ++ id s ++ " en estado ALERTA")%string))
        (filter en_alerta ss).
Proof.
  induction ss as [|s ss IH]; simpl; [reflexivity|].
  rewrite envios_app, IH. unfold mensaje_panel, estado_de.
  destruct (en_alerta s); reflexivity.
Qed.

(** C5: [actualizar_panel] prints one status line per indicator and, for
    each indicator in alert, delivers exactly one message
    ["ALERTA: {id} en estado ALERTA"] through the panel's own channel; the
    other indicators cause no delivery.  The outcome does not depend on the
    manager the panel holds, and no channel other than the panel's own
    receives anything. *)
Theorem actualizar_panel_canal_propio (p : PanelEmergencias F) (log : Bitacora) :
  actualizar_panel p log
  = log ++ flat_map (fun s => Imprime (linea_panel s)
                              :: (if en_alerta s
                                  then [Envia (notificador p) (mensaje_panel s)]
                                  else []))
                    (indicadores p)
  /\ envios (actualizar_panel p log)
     = envios log
       ++ map (fun s => (notificador p, ("ALERTA: " ++ id s ++ " en estado ALERTA")%string))
              (filter en_alerta (indicadores p))
  /\ (forall g' : GestorAlertas F,
        actualizar_panel (mkPanel g' (notificador p) (indicadores p)) log
        = actualizar_panel p log)
  /\ (forall n : Notificador,
        In n (_notificadores (gestor p)) ->
        n <> notificador p ->
        ~ In n (map fst (envios (actualizar_panel p [])))).
Proof.
  assert (E : forall l, actualizar_panel p l
    = l ++ flat_map (fun s => Imprime (linea_panel s)
                              :: (if en_alerta s
                                  then [Envia (notificador p) (mensaje_panel s)]
                                  else []))
                    (indicadores p))
    by (intros l; apply actualizar_lista).
  split; [apply E|]. split; [| split].
  - now rewrite E, envios_app, envios_actualizar.
  - intros g'. reflexivity.
  - intros n _ Hn Hin. rewrite E in Hin. cbn [app] in Hin.
    rewrite envios_actualizar, map_map in Hin. cbn [fst] in Hin.
    apply in_map_iff in Hin. destruct Hin as [s [Hs _]]. congruence.
Qed.
End Dispatch.

(** C3 on two binary64 sensors in alert and two channels. *)
Lemma evaluar_y_notificar_reparte_witness :
  let s1 := mkSensor "t1" 5 0%float [85%float] (SensorTemperatura 80%float) in
  let s2 := mkSensor "v1" 5 0%float [910.5%float; 911%float]
              (SensorVolcan 900%float 1000%float) in
  let n1 := NotificadorEmail "ops@example.org" in
  let n2 := NotificadorSMS "555-0100" in
  evaluar_y_notificar (mkGestor [s1; s2] [n1; n2]) []
  = [Envia n1 "ALERTA: Sensor t1 en umbral (avg=85.00)";
     Envia n2 "ALERTA: Sensor t1 en umbral (avg=85.00)";
     Envia n1 "ALERTA: Sensor v1 en umbral (avg=910.75)";
     Envia n2 "ALERTA: Sensor v1 en umbral (avg=910.75)"].
Proof.
  intros s1 s2 n1 n2.
  exact (proj2 (proj2 (proj2
           (evaluar_y_notificar_reparte (mkGestor [s1; s2] [n1; n2]) [])))
           s1 s2 n1 n2 eq_refl eq_refl eq_refl eq_refl).
Defined.

(** C5 on a panel whose channel is not one of its manager's. *)
Lemma actualizar_panel_canal_propio_witness :
  let s1 := mkSensor "t1" 5 0%float [85%float] (SensorTemperatura 80%float) in
  let s2 := mkSensor "q1" 5 0%float [1.25%float] (SensorSismo 5%float) in
  let n1 := NotificadorEmail "ops@example.org" in
  let n2 := NotificadorSMS "555-0100" in
  let p := mkPanel (mkGestor [s1; s2] [n1; n2])
             (NotificadorWebhook "http://panel.example.org/hook") [s1; s2] in
  ~ In n1 (map fst (envios (actualizar_panel p []))).
Proof.
  intros s1 s2 n1 n2 p.
  apply (proj2 (proj2 (proj2 (actualizar_panel_canal_propio p [])))).
  - simpl. left. reflexivity.
  - discriminate.
Defined.

(** ** Event history *)

Lemma agregar_eventos_registros {F : Type}
    (llamadas : list (Sensor F * string * datetime)) : forall h : HistorialEventos F,
  registros (agregar_eventos h llamadas)
  = registros h ++ map (fun '(s, m, t) => mkRegistro s m t) llamadas.
Proof.
  unfold agregar_eventos.
  induction llamadas as [|[[s m] t] llamadas IH]; intros h; simpl.
  - now rewrite app_nil_r.
  - rewrite IH. unfold agregar_evento. simpl. now rewrite <- app_assoc.
Qed.

(** C9: [agregar_evento] adds one record, with the given sensor and
    message, after the records already present, which stay as they were
    and where they were; a run of calls on an empty history leaves one
    record per call, in call order. *)
Theorem agregar_evento_solo_anade {F : Type} (h : HistorialEventos F)
    (s : Sensor F) (m : string) (t : datetime)
    (llamadas : list (Sensor F * string * datetime)) :
  registros (agregar_evento h s m t) = registros h ++ [mkRegistro s m t]
  /\ length (registros (agregar_evento h s m t)) = S (length (registros h))
  /\ firstn (length (registros h)) (registros (agregar_evento h s m t)) = registros h
  /\ (forall i : nat,
        (i < length (registros h))%nat ->
        nth_error (registros (agregar_evento h s m t)) i = nth_error (registros h) i)
  /\ nth_error (registros (agregar_evento h s m t)) (length (registros h))
     = Some (mkRegistro s m t)
  /\ registros (agregar_eventos (mkHistorial []) llamadas)
     = map (fun '(s, m, t) => mkRegistro s m t) llamadas
  /\ length (registros (agregar_eventos (mkHistorial []) llamadas)) = length llamadas
  /\ registros (agregar_eventos h llamadas)
     = registros h ++ map (fun '(s, m, t) => mkRegistro s m t) llamadas.
Proof.
  assert (E : registros (agregar_evento h s m t) = registros h ++ [mkRegistro s m t])
    by reflexivity.
  rewrite E. repeat split.
  - rewrite length_app. simpl. lia.
  - rewrite firstn_app, Nat.sub_diag, firstn_all. simpl. apply app_nil_r.
  - intros i Hi. now apply nth_error_app1.
  - rewrite nth_error_app2, Nat.sub_diag by lia. reflexivity.
  - now rewrite agregar_eventos_registros.
  - rewrite agregar_eventos_registros. simpl. apply length_map.
  - apply agregar_eventos_registros.
Qed.

(** C9 on a history that already holds one record. *)
Lemma agregar_evento_solo_anade_witness :
  let s := mkSensor "t1" 5 0%float [85%float] (SensorTemperatura 80%float) in
  let h := mkHistorial [mkRegistro s "primero" 1700000000] in
  nth_error (registros (agregar_evento h s "segundo" 1700000060)) 0
  = Some (mkRegistro s "primero" 1700000000).
Proof.
  intros s h.
  apply (proj1 (proj2 (proj2 (proj2
           (agregar_evento_solo_anade h s "segundo" 1700000060 []))))).
  simpl. lia.
Defined.

(** ** Console output of one evaluation round *)

(** What the three kinds of channel and the panel print for one sensor in
    alert and one that is not. *)
Lemma salida_de_una_ronda :
  let s1 := mkSensor "t1" 5 0%float [85%float] (SensorTemperatura 80%float) in
  let s2 := mkSensor "q1" 5 0%float [1.25%float] (SensorSismo 5%float) in
  let g := mkGestor [s1; s2]
             [NotificadorEmail "ops@example.org";
              NotificadorWebhook "http://example.org/hook";
              NotificadorSMS "555-0100"] in
  let p := mkPanel g (NotificadorSMS "555-0100") [s1; s2] in
  salida (actualizar_panel p (evaluar_y_notificar g []))
  = ["[EMAIL a ops@example.org] ALERTA: Sensor t1 en umbral (avg=85.00)";
     "[WEBHOOK http://example.org/hook] ALERTA: Sensor t1 en umbral (avg=85.00)";
     "[SMS a 555-0100] ALERTA: Sensor t1 en umbral (avg=85.00)";
     "[PANEL] Sensor t1: ALERTA (avg=85.00)";
     "[SMS a 555-0100] ALERTA: t1 en estado ALERTA";
     "[PANEL] Sensor q1: NORMAL (avg=1.25)"].
Proof. reflexivity. Qed.

(** * Further properties of the window *)

Section WindowMore.
Context {F : Type} `{Number F}.

Lemma length_ultimas (w : Z) (b0 nuevos : list F) :
  length (ultimas w b0 nuevos)
  = Nat.min (length b0 + length nuevos) (Nat.max (Z.to_nat w) (length b0)).
Proof.
  unfold ultimas. rewrite length_skipn, length_app. lia.
Qed.

(** X1: whatever the capacity and the buffer a sensor starts with, a run
    of [leer] calls never raises, touches nothing but the buffer, and
    leaves it with [min (n0 + k) (max ventana n0)] entries, for [n0]
    entries at the start and [k] readings: the buffer grows up to the
    capacity and never shrinks. *)
Theorem leer_todas_longitud (s : Sensor F) (vs : list F) :
  exists s',
    leer_todas s vs = Some s'
    /\ length (_buffer s')
       = Nat.min (length (_buffer s) + length vs)
                 (Nat.max (Z.to_nat (ventana s)) (length (_buffer s)))
    /\ (length (_buffer s) <= length (_buffer s'))%nat
    /\ id s' = id s
    /\ ventana s' = ventana s
    /\ _calibracion s' = _calibracion s
    /\ clase s' = clase s.
Proof.
  eexists. split; [apply leer_todas_ok|].
  cbn [con_buffer _buffer id ventana _calibracion clase].
  rewrite length_ultimas, length_map.
  repeat split; lia.
Qed.

(** X2: a buffer that already holds [ventana] entries or more is not cut
    down to the capacity: every call drops one entry, the oldest, and adds
    one, so after [k] readings the [k] oldest entries are gone and the
    length is what it was. *)
Theorem leer_todas_desliza (s : Sensor F) (vs : list F) :
  ventana s <= Z.of_nat (length (_buffer s)) ->
  exists s',
    leer_todas s vs = Some s'
    /\ _buffer s'
       = skipn (length vs) (_buffer s ++ map (fun v => add v (_calibracion s)) vs)
    /\ length (_buffer s') = length (_buffer s).
Proof.
  intros Hw. eexists. split; [apply leer_todas_ok|].
  cbn [con_buffer _buffer]. split.
  - unfold ultimas. rewrite length_app, length_map. f_equal. lia.
  - rewrite length_ultimas, length_map. lia.
Qed.

(** X3: once as many readings have arrived as the capacity, what the
    buffer held before has no influence: the buffer is the last [ventana]
    calibrated readings. *)
Theorem leer_todas_olvida (s : Sensor F) (vs : list F) :
  (length (_buffer s) <= Z.to_nat (ventana s))%nat ->
  (Z.to_nat (ventana s) <= length vs)%nat ->
  exists s',
    leer_todas s vs = Some s'
    /\ _buffer s'
       = skipn (length vs - Z.to_nat (ventana s))
               (map (fun v => add v (_calibracion s)) vs)
    /\ length (_buffer s') = Z.to_nat (ventana s).
Proof.
  intros Hb Hv. eexists. split; [apply leer_todas_ok|].
  cbn [con_buffer _buffer]. split.
  - unfold ultimas. rewrite length_app, length_map, skipn_app.
    rewrite skipn_all2 by lia. cbn [app]. f_equal. lia.
  - rewrite length_ultimas, length_map. lia.
Qed.
End WindowMore.

(** X2 on a window of two that starts with three entries. *)
Lemma leer_todas_desliza_witness :
  let s := mkSensor "t1" 2 0%float [1%float; 2%float; 3%float]
             (SensorTemperatura 80%float) in
  exists s',
    leer_todas s [4%float; 5%float] = Some s'
    /\ _buffer s' = [3%float; 4%float; 5%float]
    /\ length (_buffer s') = 3%nat.
Proof.
  intros s.
  assert (Hw : ventana s <= Z.of_nat (length (_buffer s))) by (simpl; lia).
  exact (leer_todas_desliza s [4%float; 5%float] Hw).
Defined.

(** X3 on a window of two holding one old entry. *)
Lemma leer_todas_olvida_witness :
  let s := mkSensor "t1" 2 0%float [100%float] (SensorTemperatura 80%float) in
  exists s',
    leer_todas s [1%float; 2%float; 3%float] = Some s'
    /\ _buffer s' = [2%float; 3%float]
    /\ length (_buffer s') = 2%nat.
Proof.
  intros s.
  assert (Hb : (length (_buffer s) <= Z.to_nat (ventana s))%nat) by (simpl; lia).
  assert (Hv : (Z.to_nat (ventana s) <= length [1%float; 2%float; 3%float])%nat)
    by (simpl; lia).
  exact (leer_todas_olvida s [1%float; 2%float; 3%float] Hb Hv).
Defined.

(** * Further properties of the alert predicates, over the rationals *)

Local Open Scope Q_scope.

Lemma inject_length_cons (x : Q) (l : list Q) :
  inject_Z (Z.of_nat (length (x :: l))) == inject_Z (Z.of_nat (length l)) + 1.
Proof.
  cbn [length]. rewrite Nat2Z.inj_succ, <- Z.add_1_r, inject_Z_plus. reflexivity.
Qed.

Lemma Qsum_lower (u : Q) (l : list Q) :
  Forall (fun x => u <= x) l ->
  inject_Z (Z.of_nat (length l)) * u <= fold_right Qplus 0 l.
Proof.
  induction 1 as [|x l Hx _ IH].
  - simpl. rewrite Qmult_0_l. apply Qle_refl.
  - rewrite inject_length_cons. cbn [fold_right].
    setoid_replace ((inject_Z (Z.of_nat (length l)) + 1) * u)
      with (u + inject_Z (Z.of_nat (length l)) * u) by ring.
    now apply Qplus_le_compat.
Qed.

Lemma Qsum_upper (u : Q) (l : list Q) :
  Forall (fun x => x <= u) l ->
  fold_right Qplus 0 l <= inject_Z (Z.of_nat (length l)) * u.
Proof.
  induction 1 as [|x l Hx _ IH].
  - simpl. rewrite Qmult_0_l. apply Qle_refl.
  - rewrite inject_length_cons. cbn [fold_right].
    setoid_replace ((inject_Z (Z.of_nat (length l)) + 1) * u)
      with (u + inject_Z (Z.of_nat (length l)) * u) by ring.
    now apply Qplus_le_compat.
Qed.

Lemma inject_length_pos (x : Q) (l : list Q) :
  0 < inject_Z (Z.of_nat (length (x :: l))).
Proof.
  unfold Qlt, inject_Z. cbn [Qnum Qden length]. lia.
Qed.

(** The mean of a non-empty list is at least any lower bound of it. *)
Lemma Qmean_lower (u x : Q) (xs : list Q) :
  Forall (fun y => u <= y) (x :: xs) -> u <= Qmean (x :: xs).
Proof.
  intros Hall.
  apply (Qmult_le_r _ _ (inject_Z (Z.of_nat (length (x :: xs)))));
    [apply inject_length_pos|].
  rewrite Qmean_times_length, Qmult_comm. now apply Qsum_lower.
Qed.

(** The mean of a non-empty list is below any strict upper bound of it. *)
Lemma Qmean_upper_strict (u x : Q) (xs : list Q) :
  Forall (fun y => y < u) (x :: xs) -> Qmean (x :: xs) < u.
Proof.
  intros Hall.
  apply (Qmult_lt_r _ _ (inject_Z (Z.of_nat (length (x :: xs)))));
    [apply inject_length_pos|].
  rewrite Qmean_times_length, inject_length_cons. cbn [fold_right].
  inversion Hall as [|? ? Hx Hxs]; subst.
  setoid_replace (u * (inject_Z (Z.of_nat (length xs)) + 1))
    with (u + inject_Z (Z.of_nat (length xs)) * u) by ring.
  apply Qplus_lt_le_compat; [exact Hx|].
  apply Qsum_upper. eapply Forall_impl; [|exact Hxs].
  intros y Hy. now apply Qlt_le_weak.
Qed.

(** X5: over the rationals, a temperature or seismic sensor whose buffer
    is not empty is in alert when every reading of the buffer is at or
    above the threshold, and is not when every reading is below it. *)
Theorem en_alerta_por_lecturas (i : string) (w : Z) (c : Q) (b : list Q) (u : Q) :
  b <> [] ->
  (Forall (fun x => u <= x) b ->
     en_alerta (mkSensor i w c b (SensorTemperatura u)) = true
     /\ en_alerta (mkSensor i w c b (SensorSismo u)) = true)
  /\ (Forall (fun x => x < u) b ->
        en_alerta (mkSensor i w c b (SensorTemperatura u)) = false
        /\ en_alerta (mkSensor i w c b (SensorSismo u)) = false).
Proof.
  intros Hb. destruct b as [|x xs]; [congruence|].
  unfold en_alerta, promedio. cbn [clase _buffer ge mean Number_Q].
  split; intros Hall.
  - assert (Hm := Qmean_lower Hall).
    apply Qle_bool_iff in Hm. now rewrite Hm.
  - assert (Hm := Qmean_upper_strict Hall).
    assert (E : Qle_bool u (Qmean (x :: xs)) = false).
    { destruct (Qle_bool u (Qmean (x :: xs))) eqn:E; [|reflexivity].
      apply Qle_bool_iff in E. exfalso. exact (Qlt_not_le _ _ Hm E). }
    now rewrite E.
Qed.

(** X5 on three readings at or above a threshold of 80, and three below. *)
Lemma en_alerta_por_lecturas_witness :
  (en_alerta (mkSensor "t1" 5 0 [81 # 1; 80 # 1; 95 # 1] (SensorTemperatura (80 # 1))) = true
   /\ en_alerta (mkSensor "t1" 5 0 [81 # 1; 80 # 1; 95 # 1] (SensorSismo (80 # 1))) = true)
  /\ (en_alerta (mkSensor "t1" 5 0 [79 # 1; 10 # 1; 7 # 2] (SensorTemperatura (80 # 1))) = false
      /\ en_alerta (mkSensor "t1" 5 0 [79 # 1; 10 # 1; 7 # 2] (SensorSismo (80 # 1))) = false).
Proof.
  split.
  - apply (proj1 (@en_alerta_por_lecturas "t1" 5%Z 0 [81 # 1; 80 # 1; 95 # 1] (80 # 1)
                    ltac:(discriminate))).
    repeat constructor; unfold Qle; simpl; lia.
  - apply (proj2 (@en_alerta_por_lecturas "t1" 5%Z 0 [79 # 1; 10 # 1; 7 # 2] (80 # 1)
                    ltac:(discriminate))).
    repeat constructor; unfold Qlt; simpl; lia.
Defined.

(** X6: over the rationals, a volcano sensor whose gas threshold is not
    above its temperature threshold (as with the defaults 900 and 50)
    alerts exactly when the average reaches the gas threshold: the
    temperature threshold decides nothing. *)
Theorem en_alerta_volcan_umbral_menor (i : string) (w : Z) (c : Q) (b : list Q)
    (temperatura_umbral gas_umbral : Q) :
  gas_umbral <= temperatura_umbral ->
  let s := mkSensor i w c b (SensorVolcan temperatura_umbral gas_umbral) in
  en_alerta s = ge (promedio s) gas_umbral.
Proof.
  intros Hle s. unfold en_alerta. cbn [clase s ge Number_Q].
  destruct (Qle_bool temperatura_umbral (promedio s)) eqn:Et; [|reflexivity].
  apply Qle_bool_iff in Et. simpl. symmetry. apply Qle_bool_iff.
  eapply Qle_trans; eassumption.
Qed.

(** X6 with the default thresholds. *)
Lemma en_alerta_volcan_umbral_menor_witness :
  let s := mkSensor "v1" 5%Z 0 [60 # 1; 70 # 1] (SensorVolcan (900 # 1) (50 # 1)) in
  en_alerta s = ge (promedio s) (50 # 1).
Proof.
  apply (@en_alerta_volcan_umbral_menor "v1" 5%Z 0 [60 # 1; 70 # 1] (900 # 1) (50 # 1)).
  unfold Qle; simpl; lia.
Defined.

(** X7: over the rationals, a vibration sensor whose threshold is zero or
    negative is always in alert, also before its first reading. *)
Theorem en_alerta_vibracion_umbral_no_positivo (i : string) (w : Z) (c : Q)
    (b : list Q) (rms_umbral : Q) :
  rms_umbral <= 0 ->
  en_alerta (mkSensor i w c b (SensorVibracion rms_umbral)) = true.
Proof.
  intros Hle. unfold en_alerta. cbn [clase ge absolute Number_Q].
  apply Qle_bool_iff. eapply Qle_trans; [exact Hle | apply Qabs_nonneg].
Qed.

(** X7 on a sensor without readings. *)
Lemma en_alerta_vibracion_umbral_no_positivo_witness :
  en_alerta (mkSensor "x1" 5%Z 0 [] (SensorVibracion 0)) = true.
Proof.
  apply (@en_alerta_vibracion_umbral_no_positivo "x1" 5%Z 0 [] 0).
  apply Qle_refl.
Defined.

Local Close Scope Q_scope.

(** * Further properties of the channels, the manager and the panel *)

Lemma append_inv_head (p a b : string) : (p ++ a = p ++ b)%string -> a = b.
Proof.
  induction p as [|ch p IH]; simpl; intros E; [exact E|].
  injection E as E. now apply IH.
Qed.

(** X8: the line a channel prints starts with the tag of its kind, so
    lines of an e-mail, a webhook and an SMS channel are never equal; and
    for a given channel the line determines the message. *)
Theorem linea_enviar_distingue :
  (forall n m1 m2, linea_enviar n m1 = linea_enviar n m2 -> m1 = m2)
  /\ (forall d u m1 m2,
        linea_enviar (NotificadorEmail d) m1 <> linea_enviar (NotificadorWebhook u) m2)
  /\ (forall d t m1 m2,
        linea_enviar (NotificadorEmail d) m1 <> linea_enviar (NotificadorSMS t) m2)
  /\ (forall u t m1 m2,
        linea_enviar (NotificadorWebhook u) m1 <> linea_enviar (NotificadorSMS t) m2).
Proof.
  split; [| repeat split; intros; simpl; discriminate].
  intros [d|u|t] m1 m2 E; unfold linea_enviar in E;
    repeat (apply append_inv_head in E); exact E.
Qed.

(** X8 on one SMS channel. *)
Lemma linea_enviar_distingue_witness :
  "ALERTA: t1 en estado ALERTA" = "ALERTA: t1 en estado ALERTA".
Proof.
  apply (proj1 linea_enviar_distingue (NotificadorSMS "555-0100")). reflexivity.
Defined.

Lemma impresos_app (l1 l2 : Bitacora) :
  impresos (l1 ++ l2) = impresos l1 ++ impresos l2.
Proof.
  induction l1 as [|e l1 IH]; simpl; [reflexivity|].
  destruct e; simpl; now rewrite IH.
Qed.

Section DispatchMore.
Context {F : Type} `{Number F}.

Lemma evaluar_reparto (g : GestorAlertas F) (log : Bitacora) :
  evaluar_y_notificar g log = log ++ reparto g.
Proof. apply evaluar_lista. Qed.

Lemma impresos_reparto (ns : list Notificador) (ss : list (Sensor F)) :
  impresos (flat_map (fun s => map (fun n => Envia n (mensaje_gestor s)) ns) ss) = [].
Proof.
  induction ss as [|s ss IH]; simpl; [reflexivity|].
  rewrite impresos_app, IH, app_nil_r.
  clear IH. induction ns as [|n ns IHn]; simpl; [reflexivity | exact IHn].
Qed.

Lemma reparto_nil (ns : list Notificador) (ss : list (Sensor F)) :
  flat_map (fun s => map (fun n => Envia n (mensaje_gestor s)) ns) ss = []
  <-> ns = [] \/ ss = [].
Proof.
  split.
  - destruct ss as [|s ss]; [now right|].
    destruct ns as [|n ns]; [now left|]. simpl. discriminate.
  - intros [-> | ->]; [|reflexivity].
    induction ss as [|s ss IH]; simpl; [reflexivity | exact IH].
Qed.

(** X9: [evaluar_y_notificar] leaves the log as it was exactly when the
    manager has no channel or none of its sensors is in alert; in every
    case what was in the log stays in front, and the manager prints
    nothing of its own. *)
Theorem evaluar_y_notificar_sin_efecto (g : GestorAlertas F) (log : Bitacora) :
  (evaluar_y_notificar g log = log
   <-> _notificadores g = [] \/ filter en_alerta (_sensores g) = [])
  /\ firstn (length log) (evaluar_y_notificar g log) = log
  /\ impresos (evaluar_y_notificar g log) = impresos log.
Proof.
  rewrite evaluar_reparto. split; [| split].
  - rewrite <- reparto_nil. unfold reparto. split.
    + intros E. apply (app_inv_head log). now rewrite app_nil_r.
    + intros ->. apply app_nil_r.
  - rewrite firstn_app, Nat.sub_diag, firstn_all. simpl. apply app_nil_r.
  - unfold reparto. now rewrite impresos_app, impresos_reparto, app_nil_r.
Qed.

(** X10: the manager keeps no memory of what it has sent: evaluating
    again, with the sensors unchanged, delivers the same messages again;
    and evaluating a list of sensors is evaluating its front part and then
    the rest. *)
Theorem evaluar_y_notificar_repite (g : GestorAlertas F) (log : Bitacora)
    (ss1 ss2 : list (Sensor F)) :
  evaluar_y_notificar g (evaluar_y_notificar g log)
  = log ++ reparto g ++ reparto g
  /\ evaluar_y_notificar (mkGestor (ss1 ++ ss2) (_notificadores g)) log
     = evaluar_y_notificar (mkGestor ss2 (_notificadores g))
         (evaluar_y_notificar (mkGestor ss1 (_notificadores g)) log).
Proof.
  split.
  - now rewrite !evaluar_reparto, <- app_assoc.
  - rewrite !evaluar_reparto. unfold reparto. cbn [_sensores _notificadores].
    now rewrite filter_app, flat_map_app, app_assoc.
Qed.

Lemma impresos_actualizar (n : Notificador) (ss : list (Sensor F)) :
  impresos (flat_map (fun s => Imprime (linea_panel s)
                               :: (if en_alerta s then [Envia n (mensaje_panel s)] else []))
                     ss)
  = map linea_panel ss.
Proof.
  induction ss as [|s ss IH]; simpl; [reflexivity|].
  rewrite impresos_app, IH. destruct (en_alerta s); reflexivity.
Qed.

Lemma actualizar_efectos (p : PanelEmergencias F) (log : Bitacora) :
  actualizar_panel p log
  = log ++ flat_map (fun s => Imprime (linea_panel s)
                              :: (if en_alerta s
                                  then [Envia (notificador p) (mensaje_panel s)]
                                  else []))
                    (indicadores p).
Proof. apply actualizar_lista. Qed.

(** X11: [actualizar_panel] prints one status line for every indicator,
    in list order and whether or not it is in alert; the label in the line
    is ALERTA for the indicators in alert and NORMAL for the others; and
    the panel delivers nothing exactly when no indicator is in alert. *)
Theorem actualizar_panel_lineas (p : PanelEmergencias F) (log : Bitacora) :
  impresos (actualizar_panel p log)
  = impresos log ++ map linea_panel (indicadores p)
  /\ (forall s : Sensor F,
        linea_panel s
        = ("[PANEL] Sensor " ++ id s ++ ": "
             ++ (if en_alerta s then "ALERTA" else "NORMAL")
             ++ " (avg=" ++ format_2f (promedio s) ++ ")")%string)
  /\ (envios (actualizar_panel p log) = envios log
      <-> filter en_alerta (indicadores p) = [])
  /\ (length (envios (actualizar_panel p [])) <= length (indicadores p))%nat.
Proof.
  rewrite actualizar_efectos.
  split; [| split; [reflexivity | split]].
  - now rewrite impresos_app, impresos_actualizar.
  - rewrite envios_app, envios_actualizar. split.
    + intros E. assert (E' : map (fun s => (notificador p,
                 ("ALERTA: " ++ id s ++ " en estado ALERTA")%string))
                 (filter en_alerta (indicadores p)) = []).
      { apply (app_inv_head (envios log)). now rewrite app_nil_r. }
      now apply map_eq_nil in E'.
    + intros ->. apply app_nil_r.
  - rewrite actualizar_efectos.
    cbn [app]. rewrite envios_actualizar, length_map. apply filter_length_le.
Qed.

(** X12: when the panel shows the sensors its manager watches, both agree
    on who is in alert: the manager's deliveries are the panel's, once for
    each channel of the manager. *)
Theorem panel_y_gestor_coinciden (p : PanelEmergencias F) :
  indicadores p = _sensores (gestor p) ->
  length (envios (evaluar_y_notificar (gestor p) []))
  = (length (envios (actualizar_panel p [])) * length (_notificadores (gestor p)))%nat
  /\ map snd (envios (actualizar_panel p []))
     = map (fun s => ("ALERTA: " ++ id s ++ " en estado ALERTA")%string)
           (filter en_alerta (_sensores (gestor p))).
Proof.
  intros E.
  rewrite evaluar_reparto, actualizar_efectos.
  cbn [app]. unfold reparto.
  rewrite envios_evaluar, length_fanout, envios_actualizar, length_map, E.
  split; [reflexivity|]. now rewrite map_map.
Qed.
End DispatchMore.

(** X12 on the manager and panel of one sensor. *)
Lemma panel_y_gestor_coinciden_witness :
  let s1 := mkSensor "t1" 5 0%float [85%float] (SensorTemperatura 80%float) in
  let s2 := mkSensor "q1" 5 0%float [1.25%float] (SensorSismo 5%float) in
  let g := mkGestor [s1; s2] [NotificadorEmail "ops@example.org"; NotificadorSMS "555-0100"] in
  let p := mkPanel g (NotificadorSMS "555-0100") [s1; s2] in
  length (envios (evaluar_y_notificar (gestor p) []))
  = (length (envios (actualizar_panel p [])) * length (_notificadores (gestor p)))%nat
  /\ map snd (envios (actualizar_panel p []))
     = map (fun s => ("ALERTA: " ++ id s ++ " en estado ALERTA")%string)
           (filter en_alerta (_sensores (gestor p))).
Proof.
  intros s1 s2 g p. exact (panel_y_gestor_coinciden p eq_refl).
Defined.

(** * Further properties of the event history *)

(** X13: the records of a history built from nothing carry, in order, the
    clock readings of the calls that made them, whatever those readings
    are; if the clock never went back between calls, the history is sorted
    by time. *)
Theorem agregar_eventos_cronologico {F : Type}
    (llamadas : list (Sensor F * string * datetime)) :
  map (@timestamp F) (registros (agregar_eventos (mkHistorial []) llamadas))
  = map snd llamadas
  /\ (Sorted Z.le (map snd llamadas) ->
      Sorted Z.le
        (map (@timestamp F) (registros (agregar_eventos (mkHistorial []) llamadas)))).
Proof.
  assert (E : map (@timestamp F) (registros (agregar_eventos (mkHistorial []) llamadas))
              = map snd llamadas).
  { rewrite agregar_eventos_registros. cbn [registros app]. rewrite map_map.
    apply map_ext. intros [[s m] t]. reflexivity. }
  split; [exact E | intros Hs; now rewrite E].
Qed.

(** X13 on two calls a minute apart. *)
Lemma agregar_eventos_cronologico_witness :
  let s := mkSensor "t1" 5 0%float [85%float] (SensorTemperatura 80%float) in
  let llamadas := [(s, "primero", 1700000000); (s, "segundo", 1700000060)] in
  Sorted Z.le
    (map (@timestamp float) (registros (agregar_eventos (mkHistorial []) llamadas))).
Proof.
  intros s llamadas. apply (proj2 (agregar_eventos_cronologico llamadas)).
  repeat constructor. simpl. lia.
Defined.

(** * Properties of the interactive program *)

Section InteractivoFacts.
Variable strip : string -> string.
Variable upper : string -> string.
Variable float_de : string -> option float.

Lemma envios_print (linea : string) (log : Bitacora) :
  envios (print linea log) = envios log.
Proof. unfold print. rewrite envios_app. simpl. apply app_nil_r. Qed.

Lemma leer_float_outcome (prompt : string) (entradas : list string) (log : Bitacora) :
  leer_float float_de prompt entradas log
  = match entradas with
    | [] => Lanza EOFError (print prompt log)
    | l :: resto =>
        match float_de l with
        | Some v => Vuelve v resto (print prompt log)
        | None => Lanza ValueError (print prompt log)
        end
    end.
Proof.
  unfold leer_float, ligar, input. destruct entradas as [|l resto]; [reflexivity|].
  destruct (float_de l); reflexivity.
Qed.

(** X14: whatever is typed, a sensor that [probar_sistema] creates has the
    default window of five, no calibration and an empty buffer; its id is
    the second line typed; creating it consumes the two lines and at most
    two threshold lines, and delivers nothing. *)
Theorem elegir_sensor_defaults (entradas entradas' : list string)
    (log log' : Bitacora) (s : Sensor float) :
  elegir_sensor strip float_de entradas log = Vuelve s entradas' log' ->
  ventana s = 5
  /\ _calibracion s = 0%float
  /\ _buffer s = []
  /\ (exists o umbrales,
        entradas = o :: id s :: umbrales ++ entradas'
        /\ (length umbrales <= 2)%nat)
  /\ envios log' = envios log.
Proof.
  unfold elegir_sensor, ligar, imprimir, input.
  destruct entradas as [|o [|i r]]; try discriminate.
  repeat match goal with
  | |- context [if String.eqb ?a ?b then _ else _] => destruct (String.eqb a b)
  end;
  repeat match goal with
  | |- context [leer_float] => rewrite leer_float_outcome
  | |- context [match ?r with [] => _ | _ :: _ => _ end] =>
      is_var r; destruct r as [|? r]
  | |- context [match float_de ?l with _ => _ end] => destruct (float_de l)
  | |- context [ligar] => unfold ligar
  end; try discriminate;
  intros E; unfold retornar in E; injection E as <- <- <-;
  cbn [sensor_nuevo ventana _calibracion _buffer id];
  rewrite ?envios_print; repeat split;
  first [ exists o, []; split; [reflexivity | simpl; lia]
        | eexists o, [_]; split; [reflexivity | simpl; lia]
        | eexists o, [_; _]; split; [reflexivity | simpl; lia] ].
Qed.
Lemma eqb_false_of_neq (a b : string) : a <> b -> String.eqb a b = false.
Proof. intros Hn. now apply String.eqb_neq. Qed.

(** X15: an option other than 1, 2, 3 or 4 gives a temperature sensor
    with the default threshold of 80 and says so; no threshold line is
    read, so the line after the id is left for the choice of the channel. *)
Theorem elegir_sensor_opcion_invalida (o i : string) (resto : list string)
    (log : Bitacora) :
  strip o <> "1" -> strip o <> "2" -> strip o <> "3" -> strip o <> "4" ->
  elegir_sensor strip float_de (o :: i :: resto) log
  = Vuelve (sensor_nuevo i (SensorTemperatura 80%float)) resto
      (log ++ map Imprime
         ["Elige un tipo de sensor:"; "1 - Temperatura"; "2 - Vibración";
          "3 - Sismo"; "4 - Volcán"; "Ingresa el número de tu opción: ";
          "ID del sensor: ";
          "Opción inválida, usando SensorTemperatura por defecto."]).
Proof.
  intros H1 H2 H3 H4.
  unfold elegir_sensor, ligar, imprimir, input, retornar.
  rewrite !eqb_false_of_neq by assumption.
  unfold print. now rewrite <- !app_assoc.
Qed.

(** X16: choosing the channel can only fail for lack of input; it
    delivers nothing; and an option other than 1, 2 or 3 gives the e-mail
    channel to default@email.com without reading a destination. *)
Theorem elegir_notificador_resultado (entradas : list string) (log : Bitacora) :
  (forall e log', elegir_notificador strip entradas log = Lanza e log' -> e = EOFError)
  /\ (forall n entradas' log',
        elegir_notificador strip entradas log = Vuelve n entradas' log' ->
        envios log' = envios log)
  /\ (forall o resto,
        entradas = o :: resto ->
        strip o <> "1" -> strip o <> "2" -> strip o <> "3" ->
        elegir_notificador strip entradas log
        = Vuelve (NotificadorEmail "default@email.com") resto
            (log ++ map Imprime
               ["Elige tipo de notificador:"; "1 - Email"; "2 - Webhook"; "3 - SMS";
                "Ingresa número: "; "Opción inválida, usando Email por defecto."])).
Proof.
  split; [| split].
  - intros e log'. unfold elegir_notificador, ligar, imprimir, input, retornar.
    destruct entradas as [|o r]; [intros E; now injection E as <- _|].
    repeat match goal with
    | |- context [if String.eqb ?a ?b then _ else _] => destruct (String.eqb a b)
    end;
    try (destruct r as [|d r]); intros E; try discriminate; now injection E as <- _.
  - intros n entradas' log'. unfold elegir_notificador, ligar, imprimir, input, retornar.
    destruct entradas as [|o r]; [discriminate|].
    repeat match goal with
    | |- context [if String.eqb ?a ?b then _ else _] => destruct (String.eqb a b)
    end;
    try (destruct r as [|d r]); intros E; try discriminate;
    injection E as _ _ <-; now rewrite !envios_print.
  - intros o resto -> H1 H2 H3.
    unfold elegir_notificador, ligar, imprimir, input, retornar.
    rewrite !eqb_false_of_neq by assumption.
    unfold print. now rewrite <- !app_assoc.
Qed.

(** *** The loop *)

Lemma envios_tras_ronda (n : Notificador) (s' : Sensor float) (log : Bitacora) :
  envios (actualizar_panel (panel_de s' n) (evaluar_y_notificar (gestor_de s' n) log))
  = envios log
    ++ (if en_alerta s'
        then [(n, mensaje_gestor s'); (n, mensaje_panel s')]
        else []).
Proof.
  rewrite actualizar_efectos, evaluar_reparto.
  unfold reparto, panel_de, gestor_de.
  cbn [indicadores notificador _sensores _notificadores filter flat_map].
  destruct (en_alerta s'); cbn [flat_map map app];
    rewrite !envios_app; simpl; now rewrite ?app_nil_r, <- ?app_assoc.
Qed.

(** One pass of the loop whose value line parses. *)
Lemma bucle_paso (n : Notificador) (s s' : Sensor float) (l1 l2 : string)
    (v : float) (entradas : list string) (log : Bitacora) :
  float_de l1 = Some v ->
  leer s v = Some s' ->
  bucle strip upper float_de n s (l1 :: l2 :: entradas) log
  = let log' :=
      print "Ingresar otra lectura? (Y/N): "
        (actualizar_panel (panel_de s' n)
           (evaluar_y_notificar (gestor_de s' n)
              (print ("Promedio actual: " ++ format_2f (promedio s'))
                 (print ("Ingrese valor de lectura para sensor " ++ id s ++ ": ") log)))) in
    if String.eqb (upper (strip l2)) "Y"
    then bucle strip upper float_de n s' entradas log'
    else Vuelve s' entradas log'.
Proof.
  intros Hf Hl. cbn [bucle]. rewrite Hf, Hl. reflexivity.
Qed.

Lemma leer_some (s : Sensor float) (v : float) : exists s', leer s v = Some s'.
Proof. eexists. apply leer_ok. Qed.

Lemma leer_todas_snoc (s s1 s2 : Sensor float) (vs : list float) (v : float) :
  leer s v = Some s1 -> leer_todas s1 vs = Some s2 -> leer_todas s (v :: vs) = Some s2.
Proof. intros H1 H2. simpl. now rewrite H1. Qed.

(** X17: a session of readings each answered Y, and a last one answered
    otherwise, returns the sensor that has read them all and leaves the
    lines after the answer unread; every reading after which the sensor
    is in alert costs the chosen channel two deliveries, the manager's
    message and then the panel's, and the others none. *)
Theorem bucle_sesion (n : Notificador)
    (previas : list (float * string * string)) :
  forall (s : Sensor float) (log : Bitacora)
         (v : float) (lv la : string) (resto : list string),
  Forall (fun r => float_de (snd (fst r)) = Some (fst (fst r))
                   /\ upper (strip (snd r)) = "Y") previas ->
  float_de lv = Some v ->
  upper (strip la) <> "Y" ->
  let valores := map (fun r => fst (fst r)) previas ++ [v] in
  exists s' log',
    bucle strip upper float_de n s
      (flat_map (fun r => [snd (fst r); snd r]) previas ++ lv :: la :: resto) log
    = Vuelve s' resto log'
    /\ leer_todas s valores = Some s'
    /\ envios log'
       = envios log
         ++ flat_map (fun st => if en_alerta st
                                then [(n, mensaje_gestor st); (n, mensaje_panel st)]
                                else [])
                     (estados s valores).
Proof.
  induction previas as [|[[x lx] ax] previas IH];
    intros s log v lv la resto Hall Hv Hla valores; subst valores.
  - destruct (leer_some s v) as [s' Hs']. cbn [map flat_map app].
    rewrite (@bucle_paso n s s' lv la v resto log Hv Hs').
    cbv zeta. rewrite (eqb_false_of_neq Hla).
    eexists _, _. split; [reflexivity|]. split.
    + simpl. now rewrite Hs'.
    + rewrite envios_print, envios_tras_ronda, !envios_print.
      cbn [estados]. rewrite Hs'. cbn [estados flat_map]. now rewrite app_nil_r.
  - inversion Hall as [|? ? [Hx Hax] Hrest]; subst. cbn [fst snd] in Hx, Hax.
    destruct (leer_some s x) as [s1 Hs1]. cbn [map flat_map fst snd app].
    rewrite (@bucle_paso n s s1 lx ax x _ log Hx Hs1).
    cbv zeta. rewrite Hax, String.eqb_refl.
    edestruct (IH s1) as [s' [log' [Hb [Ht He]]]]; [exact Hrest | exact Hv | exact Hla |].
    exists s', log'. split; [exact Hb|]. split.
    + simpl. now rewrite Hs1.
    + rewrite He, envios_print, envios_tras_ronda, !envios_print.
      cbn [estados]. rewrite Hs1. cbn [flat_map]. now rewrite <- app_assoc.
Qed.
Lemma Forall_envios_ronda (n : Notificador) (s' : Sensor float) :
  Forall (fun e : Notificador * string => fst e = n)
         (if en_alerta s'
          then [(n, mensaje_gestor s'); (n, mensaje_panel s')]
          else []).
Proof. destruct (en_alerta s'); repeat constructor. Qed.

(** The loop on a first line, given what it does on the lines after the
    answer. *)
Lemma bucle_correcto_paso (n : Notificador) (l1 : string) (entradas1 : list string) :
  (forall l2 entradas2, entradas1 = l2 :: entradas2 ->
     forall s log,
       bucle_correcto n s log (bucle strip upper float_de n s entradas2 log)) ->
  forall s log,
    bucle_correcto n s log (bucle strip upper float_de n s (l1 :: entradas1) log).
Proof.
  intros IH s log. cbn [bucle].
  destruct (float_de l1) as [v|].
  2:{ split; [intros l; discriminate|]. split; [|intros; discriminate].
      exists []. cbn [bitacora_de]. rewrite envios_print, app_nil_r. now split. }
  destruct (leer_some s v) as [s' Hs']. rewrite Hs'.
  set (log4 := print "Ingresar otra lectura? (Y/N): " _).
  assert (E4 : envios log4
               = envios log ++ (if en_alerta s'
                                then [(n, mensaje_gestor s'); (n, mensaje_panel s')]
                                else [])).
  { unfold log4. now rewrite envios_print, envios_tras_ronda, !envios_print. }
  destruct entradas1 as [|l2 entradas2].
  { split; [intros l; discriminate|]. split; [|intros; discriminate].
    eexists. cbn [bitacora_de]. split; [exact E4 | apply Forall_envios_ronda]. }
  destruct (String.eqb (upper (strip l2)) "Y").
  - destruct (IH l2 entradas2 eq_refl s' log4) as [Hno [[ds [Hds Hall]] Hret]].
    split; [exact Hno|]. split.
    + eexists. rewrite Hds, E4, <- app_assoc. split; [reflexivity|].
      apply Forall_app. split; [apply Forall_envios_ronda | exact Hall].
    + intros s'' e'' l'' Hr. destruct (Hret _ _ _ Hr) as [v' [vs' Hvs]].
      exists v, (v' :: vs'). eapply leer_todas_snoc; eassumption.
  - split; [intros l; discriminate|]. split.
    + eexists. cbn [bitacora_de]. split; [exact E4 | apply Forall_envios_ronda].
    + intros s'' e'' l'' Hr. injection Hr as <- _ _.
      exists v, []. simpl. now rewrite Hs'.
Qed.

Lemma bucle_correcto_siempre (n : Notificador) (entradas : list string) :
  (forall s log, bucle_correcto n s log (bucle strip upper float_de n s entradas log))
  /\ (forall l s log,
        bucle_correcto n s log (bucle strip upper float_de n s (l :: entradas) log)).
Proof.
  assert (Hnil : forall s log,
            bucle_correcto n s log (bucle strip upper float_de n s [] log)).
  { intros s log. cbn [bucle].
    split; [intros l; discriminate|]. split; [|intros; discriminate].
    exists []. cbn [bitacora_de]. rewrite envios_print, app_nil_r. now split. }
  induction entradas as [|a entradas [IH1 IH2]].
  - split; [exact Hnil|]. intros l. apply bucle_correcto_paso. discriminate.
  - split; [apply IH2|]. intros l. apply bucle_correcto_paso.
    intros l2 e2 E. injection E as _ <-. exact IH1.
Qed.

(** X18: whatever is typed, the loop never fails with [IndexError] (it
    can only stop for lack of input or on a line that is not a number);
    it delivers to no channel but the one chosen; and the sensor it returns
    has read at least one reading, keeps its window and calibration, and
    holds no more entries than the larger of its window and what it held
    at the start. *)
Theorem bucle_seguro (n : Notificador) (s : Sensor float)
    (entradas : list string) (log : Bitacora) :
  let r := bucle strip upper float_de n s entradas log in
  (forall l, r <> Lanza IndexError l)
  /\ (exists ds, envios (bitacora_de r) = envios log ++ ds
                 /\ Forall (fun e => fst e = n) ds)
  /\ (forall s' entradas' log',
        r = Vuelve s' entradas' log' ->
        (exists v vs, leer_todas s (v :: vs) = Some s')
        /\ ventana s' = ventana s
        /\ _calibracion s' = _calibracion s
        /\ (length (_buffer s')
            <= Nat.max (Z.to_nat (ventana s)) (length (_buffer s)))%nat).
Proof.
  intros r. destruct (proj1 (bucle_correcto_siempre n entradas) s log)
    as [Hno [Hds Hret]].
  split; [exact Hno|]. split; [exact Hds|].
  intros s' e' l' Hr. destruct (Hret _ _ _ Hr) as [v [vs Hvs]].
  split; [now exists v, vs|].
  rewrite leer_todas_ok in Hvs. injection Hvs as <-.
  cbn [con_buffer ventana _calibracion _buffer].
  split; [reflexivity|]. split; [reflexivity|].
  unfold ultimas. rewrite length_skipn, length_app. lia.
Qed.
(** *** The whole program *)

Ltac recorrer_eleccion :=
  repeat match goal with
  | |- context [if String.eqb ?a ?b then _ else _] => destruct (String.eqb a b)
  end;
  repeat match goal with
  | |- context [leer_float] => rewrite leer_float_outcome
  | |- context [match ?r with [] => _ | _ :: _ => _ end] =>
      is_var r; destruct r as [|? r]
  | |- context [match float_de ?l with _ => _ end] => destruct (float_de l)
  | |- context [ligar] => unfold ligar
  end.

Lemma elegir_sensor_efectos (entradas : list string) (log : Bitacora) :
  envios (bitacora_de (elegir_sensor strip float_de entradas log)) = envios log
  /\ (forall l, elegir_sensor strip float_de entradas log <> Lanza IndexError l)
  /\ (forall s entradas' log',
        elegir_sensor strip float_de entradas log = Vuelve s entradas' log' ->
        ventana s = 5 /\ _calibracion s = 0%float /\ _buffer s = []).
Proof.
  unfold elegir_sensor, ligar, imprimir, input.
  destruct entradas as [|o [|i r]];
    [ cbn [bitacora_de]; rewrite !envios_print;
      split; [reflexivity | split; [intros; discriminate | intros; discriminate]] .. |].
  recorrer_eleccion; unfold retornar, lanzar; cbn [bitacora_de];
    rewrite !envios_print;
    (split; [reflexivity | split; [intros; discriminate |]]);
    intros sx ex lx E; try discriminate; injection E as <- _ _; now repeat split.
Qed.

Lemma elegir_notificador_efectos (entradas : list string) (log : Bitacora) :
  envios (bitacora_de (elegir_notificador strip entradas log)) = envios log
  /\ (forall l, elegir_notificador strip entradas log <> Lanza IndexError l).
Proof.
  unfold elegir_notificador, ligar, imprimir, input, retornar.
  destruct entradas as [|o r];
    [ cbn [bitacora_de]; rewrite !envios_print; split; [reflexivity | intros; discriminate] |].
  repeat match goal with
  | |- context [if String.eqb ?a ?b then _ else _] => destruct (String.eqb a b)
  end;
  try (destruct r as [|d r]); cbn [bitacora_de]; rewrite !envios_print;
    (split; [reflexivity | intros; discriminate]).
Qed.

(** X19: whatever is typed at [probar_sistema], the program never fails
    with [IndexError]; everything it delivers goes to one channel; and if
    it ends normally its sensor has the window of five, no calibration,
    and a buffer of one to five entries. *)
Theorem probar_sistema_seguro (entradas : list string) :
  let r := probar_sistema strip upper float_de entradas [] in
  (forall l, r <> Lanza IndexError l)
  /\ (exists n, Forall (fun e => fst e = n) (envios (bitacora_de r)))
  /\ (forall s entradas' log',
        r = Vuelve s entradas' log' ->
        ventana s = 5
        /\ _calibracion s = 0%float
        /\ (1 <= length (_buffer s) <= 5)%nat).
Proof.
  intros r. subst r. unfold probar_sistema, ligar.
  destruct (elegir_sensor_efectos entradas []) as [Es [Hs Hd]].
  destruct (elegir_sensor strip float_de entradas []) as [s0 e0 l0|ex l0].
  2:{ split; [intros l E; injection E as -> _; now apply (Hs l0)|].
      split; [|intros; discriminate].
      exists (NotificadorEmail ""). cbn [bitacora_de] in *. rewrite Es. constructor. }
  destruct (Hd s0 e0 l0 eq_refl) as [Hw [Hc Hb]]. cbn [bitacora_de] in Es.
  destruct (elegir_notificador_efectos e0 l0) as [En Hn].
  destruct (elegir_notificador strip e0 l0) as [n e1 l1|ex l1].
  2:{ split; [intros l E; injection E as -> _; now apply (Hn l1)|].
      split; [|intros; discriminate].
      exists (NotificadorEmail ""). cbn [bitacora_de] in *. rewrite En, Es. constructor. }
  cbn [bitacora_de] in En.
  destruct (proj1 (bucle_correcto_siempre n e1) s0 l1) as [Hno [[ds [Hds Hall]] Hret]].
  split; [exact Hno|]. split.
  - exists n. rewrite Hds, En, Es. exact Hall.
  - intros s e' l' Hr. destruct (Hret _ _ _ Hr) as [v [vs Hvs]].
    rewrite leer_todas_ok in Hvs. injection Hvs as <-.
    cbn [con_buffer ventana _calibracion _buffer].
    split; [exact Hw|]. split; [exact Hc|].
    rewrite Hb, Hw, length_ultimas. cbn [length].
    replace (Z.to_nat 5) with 5%nat by reflexivity. lia.
Qed.
End InteractivoFacts.

(** X14 on the lines 1, t1, 85. *)
Lemma elegir_sensor_defaults_witness :
  exists s entradas' log',
    ventana s = 5
    /\ _calibracion s = 0%float
    /\ _buffer s = []
    /\ (exists o umbrales,
          ["1"; "t1"; "85"; "3"] = o :: id s :: umbrales ++ entradas'
          /\ (length umbrales <= 2)%nat)
    /\ envios log' = envios [].
Proof.
  eexists _, _, _.
  eapply (@elegir_sensor_defaults sin_cambio float_de_ejemplo ["1"; "t1"; "85"; "3"]).
  lazy. reflexivity.
Defined.

(** X15 on the option 9. *)
Lemma elegir_sensor_opcion_invalida_witness :
  elegir_sensor sin_cambio float_de_ejemplo ["9"; "t1"; "3"; "555-0100"] []
  = Vuelve (sensor_nuevo "t1" (SensorTemperatura 80%float)) ["3"; "555-0100"]
      ([] ++ map Imprime
         ["Elige un tipo de sensor:"; "1 - Temperatura"; "2 - Vibración";
          "3 - Sismo"; "4 - Volcán"; "Ingresa el número de tu opción: ";
          "ID del sensor: ";
          "Opción inválida, usando SensorTemperatura por defecto."]).
Proof.
  apply (@elegir_sensor_opcion_invalida sin_cambio float_de_ejemplo "9" "t1");
    discriminate.
Defined.

(** X16 without input, and on the option 7. *)
Lemma elegir_notificador_resultado_witness :
  EOFError = EOFError
  /\ elegir_notificador sin_cambio ["7"; "85"] []
     = Vuelve (NotificadorEmail "default@email.com") ["85"]
         ([] ++ map Imprime
            ["Elige tipo de notificador:"; "1 - Email"; "2 - Webhook"; "3 - SMS";
             "Ingresa número: "; "Opción inválida, usando Email por defecto."]).
Proof.
  split.
  - eapply (proj1 (elegir_notificador_resultado sin_cambio [] [])). reflexivity.
  - apply (proj2 (proj2 (elegir_notificador_resultado sin_cambio ["7"; "85"] [])) "7" ["85"]);
      [reflexivity | discriminate ..].
Defined.

(** X17 on two readings, 20 and then 85, against a threshold of 50. *)
Lemma bucle_sesion_witness :
  let n := NotificadorSMS "555-0100" in
  let s := sensor_nuevo "t1" (SensorTemperatura 50%float) in
  exists s' log',
    bucle sin_cambio sin_cambio float_de_ejemplo n s ["20"; "Y"; "85"; "N"; "resto"] []
    = Vuelve s' ["resto"] log'
    /\ leer_todas s [20%float; 85%float] = Some s'
    /\ envios log'
       = [(n, "ALERTA: Sensor t1 en umbral (avg=52.50)");
          (n, "ALERTA: t1 en estado ALERTA")].
Proof.
  intros n s.
  assert (Hp : Forall (fun r : float * string * string =>
                         float_de_ejemplo (snd (fst r)) = Some (fst (fst r))
                         /\ sin_cambio (sin_cambio (snd r)) = "Y")
                      [(20%float, "20", "Y")])
    by (repeat constructor).
  assert (Hv : float_de_ejemplo "85" = Some 85%float) by reflexivity.
  assert (Hn : sin_cambio (sin_cambio "N") <> "Y") by discriminate.
  exact (@bucle_sesion sin_cambio sin_cambio float_de_ejemplo n
           [(20%float, "20", "Y")] s [] 85%float "85" "N" ["resto"] Hp Hv Hn).
Defined.

(** X18 on one reading answered N. *)
Lemma bucle_seguro_witness :
  let n := NotificadorSMS "555-0100" in
  let s := sensor_nuevo "t1" (SensorTemperatura 80%float) in
  let s' := mkSensor "t1" 5 0%float [85%float] (SensorTemperatura 80%float) in
  (exists v vs, leer_todas s (v :: vs) = Some s')
  /\ ventana s' = ventana s
  /\ _calibracion s' = _calibracion s
  /\ (length (_buffer s') <= Nat.max (Z.to_nat (ventana s)) (length (_buffer s)))%nat.
Proof.
  intros n s s'.
  eapply (proj2 (proj2 (@bucle_seguro sin_cambio sin_cambio float_de_ejemplo n s
                          ["85"; "N"] []))).
  lazy. reflexivity.
Defined.

(** X19 on a whole session: temperature sensor t1 at 80, SMS channel, one
    reading of 85. *)
Lemma probar_sistema_seguro_witness :
  let s := mkSensor "t1" 5 0%float [85%float] (SensorTemperatura 80%float) in
  ventana s = 5 /\ _calibracion s = 0%float /\ (1 <= length (_buffer s) <= 5)%nat.
Proof.
  intros s.
  eapply (proj2 (proj2 (@probar_sistema_seguro sin_cambio sin_cambio float_de_ejemplo
                          ["1"; "t1"; "80"; "3"; "555-0100"; "85"; "N"]))).
  lazy. reflexivity.
Defined.

(** * NaN readings *)

Lemma Prim2SF_nan_eq (x : float) : Prim2SF x = S754_nan -> x = nan.
Proof.
  intros E. rewrite <- (SF2Prim_Prim2SF x), E. reflexivity.
Qed.

Lemma add_nan_r (x : float) : PrimFloat.add x nan = nan.
Proof.
  apply Prim2SF_nan_eq. rewrite add_spec.
  change (Prim2SF nan) with S754_nan.
  destruct (Prim2SF x); reflexivity.
Qed.

Lemma add_nan_l (x : float) : PrimFloat.add nan x = nan.
Proof.
  apply Prim2SF_nan_eq. rewrite add_spec.
  change (Prim2SF nan) with S754_nan. reflexivity.
Qed.

Lemma div_nan_l (x : float) : PrimFloat.div nan x = nan.
Proof.
  apply Prim2SF_nan_eq. rewrite div_spec.
  change (Prim2SF nan) with S754_nan. reflexivity.
Qed.

Lemma leb_nan_r (x : float) : PrimFloat.leb x nan = false.
Proof.
  rewrite leb_spec. change (Prim2SF nan) with S754_nan.
  destruct (Prim2SF x) as [[|]|[|]| |[|] m e]; reflexivity.
Qed.

Lemma fold_add_nan (l : list float) : forall a : float,
  a = nan \/ In nan l -> fold_left PrimFloat.add l a = nan.
Proof.
  induction l as [|x l IH]; intros a [Ha | Hin]; simpl.
  - exact Ha.
  - destruct Hin.
  - apply IH. left. subst a. apply add_nan_l.
  - destruct Hin as [-> | Hin]; apply IH; [left; apply add_nan_r | now right].
Qed.

(** [statistics.mean] of data that contain a NaN is NaN. *)
Lemma float_mean_nan (l : list float) : In nan l -> float_mean l = nan.
Proof.
  intros Hin. unfold float_mean.
  assert (Hf : forallb is_finite l = false).
  { destruct (forallb is_finite l) eqn:E; [|reflexivity].
    rewrite forallb_forall in E. specialize (E nan Hin). discriminate E. }
  rewrite Hf, fold_add_nan; [apply div_nan_l|].
  right. apply filter_In. split; [exact Hin | reflexivity].
Qed.

(** X20: on binary64, a sensor of any kind whose buffer holds a NaN has a
    NaN average and is not in alert, whatever its thresholds. *)
Theorem en_alerta_con_nan (s : Sensor float) :
  In nan (_buffer s) ->
  promedio s = nan /\ en_alerta s = false.
Proof.
  intros Hin.
  assert (Hp : promedio s = nan).
  { unfold promedio. destruct (_buffer s) as [|x xs] eqn:E; [destruct Hin|].
    cbn [mean Number_float]. now apply float_mean_nan. }
  split; [exact Hp|].
  unfold en_alerta. rewrite Hp. cbn [ge absolute Number_float].
  destruct (clase s); change (PrimFloat.abs nan) with nan;
    rewrite ?leb_nan_r; reflexivity.
Qed.

(** X21: on binary64, reading a NaN into a sensor with a positive window
    silences it: after that reading and fewer than [ventana] further ones,
    whatever they are, the average is NaN and the sensor is not in alert. *)
Theorem leer_nan_silencia (s : Sensor float) (vs : list float) :
  0 < ventana s ->
  (length vs < Z.to_nat (ventana s))%nat ->
  exists s',
    leer_todas s (nan :: vs) = Some s'
    /\ In nan (_buffer s')
    /\ promedio s' = nan
    /\ en_alerta s' = false.
Proof.
  intros Hw Hl. eexists. split; [apply leer_todas_ok|].
  set (s' := con_buffer s _).
  assert (Hin : In nan (_buffer s')).
  { unfold s'. cbn [con_buffer _buffer map]. unfold ultimas.
    cbn [add Number_float]. rewrite add_nan_l.
    rewrite length_app. cbn [length]. rewrite length_map, skipn_app.
    apply in_or_app. right.
    match goal with |- In nan (skipn ?k _) => replace k with 0%nat by lia end.
    left. reflexivity. }
  split; [exact Hin|].
  assert (Hp : promedio s' = nan).
  { unfold promedio. destruct (_buffer s') as [|x xs] eqn:E; [destruct Hin|].
    cbn [mean Number_float]. now apply float_mean_nan. }
  split; [exact Hp|].
  unfold en_alerta. rewrite Hp. cbn [ge absolute Number_float].
  destruct (clase s'); change (PrimFloat.abs nan) with nan;
    rewrite ?leb_nan_r; reflexivity.
Qed.

(** X20 on a volcano sensor with the default thresholds. *)
Lemma en_alerta_con_nan_witness :
  let s := mkSensor "v1" 5 0%float [2000%float; nan; 3000%float]
             (SensorVolcan 900%float 50%float) in
  promedio s = nan /\ en_alerta s = false.
Proof.
  intros s. apply (en_alerta_con_nan s). simpl. right. left. reflexivity.
Defined.

(** X21 on a window of three already in alert. *)
Lemma leer_nan_silencia_witness :
  let s := mkSensor "t1" 3 0%float [95%float; 99%float] (SensorTemperatura 80%float) in
  exists s',
    leer_todas s [nan; 120%float; 130%float] = Some s'
    /\ In nan (_buffer s')
    /\ promedio s' = nan
    /\ en_alerta s' = false.
Proof.
  intros s.
  assert (Hw : 0 < ventana s) by (simpl; lia).
  assert (Hl : (length [120%float; 130%float] < Z.to_nat (ventana s))%nat)
    by (simpl; lia).
  exact (leer_nan_silencia s [120%float; 130%float] Hw Hl).
Defined.
